(** * Quiz.jsx: the multiple-choice quiz component

    A shallow embedding of [src/components/practices/funny_practices/Quiz.jsx]:
    the question loader ([fetchQuestions]), the event handlers
    ([handleAnswer], [handleNext], [handleRestart], [handleLevelSelect]) and the
    conditional rendering that decides which controls the user can reach.

    JavaScript values are modelled as JSON trees, exceptions as completions,
    [Math.random] as an explicit stream threaded through the loader, React
    state as a record passed from handler to handler. *)

From Stdlib Require Import ZArith String Floats List Permutation Lia.
From stdpp Require Import gmap strings list.

Set Warnings "-register-all".
Local Open Scope string_scope.
Local Open Scope Z_scope.

(** ** JavaScript values *)

Module Js.

(** The values the component handles all come from a JSON payload or from
    the component's own literals.  Numbers are IEEE 754 doubles. *)
Inductive value : Type :=
| VUndefined
| VNull
| VBool (b : bool)
| VNum (x : float)
| VStr (s : string)
| VArr (elems : list value)
| VObj (props : gmap string value).

(** [typeof v] *)
Definition typeof (v : value) : string :=
  match v with
  | VUndefined => "undefined"
  | VNull => "object"
  | VBool _ => "boolean"
  | VNum _ => "number"
  | VStr _ => "string"
  | VArr _ => "object"
  | VObj _ => "object"
  end.

(** ToBoolean: [undefined], [null], [false], [+0], [-0], [NaN] and the empty
    string are falsy, everything else is truthy. *)
Definition truthy (v : value) : bool :=
  match v with
  | VUndefined | VNull => false
  | VBool b => b
  | VNum x => negb (PrimFloat.is_zero x || PrimFloat.is_nan x)
  | VStr s => negb (String.eqb s "")
  | VArr _ | VObj _ => true
  end.

(** [a || b] on values *)
Definition or_else (a b : value) : value := if truthy a then a else b.

Definition nullish (v : value) : bool :=
  match v with
  | VUndefined | VNull => true
  | _ => false
  end.

(** [Array.isArray(v)], [v.length] of an array and the elements [...v]
    spreads. *)
Definition Array_isArray (v : value) : bool :=
  match v with
  | VArr _ => true
  | _ => false
  end.

Definition Array_length (v : value) : Z :=
  match v with
  | VArr l => Z.of_nat (length l)
  | _ => 0
  end.

Definition spread (v : value) : list value :=
  match v with
  | VArr l => l
  | _ => []
  end.

(** [a === s] where the right-hand side is a string: true exactly for the
    same string, so reference identity plays no role. *)
Definition strict_equals_string (a : value) (s : string) : bool :=
  match a with
  | VStr t => String.eqb t s
  | _ => false
  end.

(** *** Completions: a computation returns or throws a value *)

Inductive completion (A : Type) : Type :=
| Normal (a : A)
| Throw (e : value).
Arguments Normal {A} a.
Arguments Throw {A} e.

(** [new Error(message)]: the only property the component reads back is
    [message]. *)
Definition new_Error (message : string) : value :=
  VObj {[ "message" := VStr message ]}.

(** A [TypeError] raised by the engine.  Its text is the engine's own; the
    model carries V8's (Node, Chrome). *)
Definition TypeError (message : string) : value := new_Error message.

(** V8's message for reading property [k] of [v], where [v] is [null] or
    [undefined]. *)
Definition cannot_read (v : value) (k : string) : string :=
  "Cannot read properties of "
  ++ match v with VNull => "null" | _ => "undefined" end
  ++ " (reading '" ++ k ++ "')".

(** The value of [v.k] for a [v] that is neither [null] nor [undefined], for
    the property names the component reads ([data], [content], [question],
    [correctAnswer], [wrongAnswers], [explanation], [_id], [id], [message]):
    none of them is defined on a prototype, so only the own properties of an
    object answer and every other value gives [undefined]. *)
Definition own_property (v : value) (k : string) : value :=
  match v with
  | VObj m => default VUndefined (m !! k)
  | _ => VUndefined
  end.

(** [v.k]: property access throws a [TypeError] on [null] and [undefined]. *)
Definition Get (v : value) (k : string) : completion value :=
  if nullish v then Throw (TypeError (cannot_read v k))
  else Normal (own_property v k).

(** *** Numbers *)

(** The double that holds the integer [z] (exact below 2^53). *)
Definition of_Z (z : Z) : float :=
  SF2Prim (binary_normalize prec emax z 0 false).

(** [Math.round(x)]: the integer closest to [x], ties going up;
    [NaN], the infinities and the zeros are returned unchanged and a
    negative [x >= -0.5] gives [-0].  A finite double is [±m * 2^e]. *)
Definition Math_round (x : float) : float :=
  match Prim2SF x with
  | S754_finite sign m e =>
      if 0 <=? e then x
      else
        let n := if sign then Z.neg m else Z.pos m in
        let r := Z.shiftr (2 * n + 2 ^ (- e)) (1 - e) in
        if r =? 0 then (if sign then PrimFloat.neg_zero else PrimFloat.zero)
        else of_Z r
  | _ => x
  end.

End Js.
Import Js.

(** ** The random source and the loader monad *)

(** [Math.random] is a process-wide generator: its successive results are
    an arbitrary stream of doubles. *)
Definition rng : Type := nat -> float.

(** A computation of the loader reads the stream and may throw. *)
Definition M (A : Type) : Type := rng -> completion (A * rng).

Definition ret {A} (a : A) : M A := fun r => Normal (a, r).

Definition bind {A B} (c : M A) (k : A -> M B) : M B :=
  fun r =>
    match c r with
    | Normal (a, r') => k a r'
    | Throw e => Throw e
    end.

Definition lift {A} (c : completion A) : M A :=
  fun r =>
    match c with
    | Normal a => Normal (a, r)
    | Throw e => Throw e
    end.

Definition throw {A} (e : value) : M A := fun _ => Throw e.

Notation "'let*' x ':=' c 'in' k" := (bind c (fun x => k))
  (at level 10, x name, c at level 100, k at level 200).

(** [Math.random()] *)
Definition Math_random : M float :=
  fun r => Normal (r 0%nat, fun n => r (S n)).

(** ** [Array.prototype.sort] with a comparator *)

Section Sort.
Context {A : Type}.
(** [comparefn(a, b)] returns a number and may consult the random source. *)
Variable comparefn : A -> A -> M float.

(** ECMAScript leaves the sequence of comparisons to the engine.  The
    model is insertion sort: each element is placed into the already
    ordered prefix, before the first element it compares below. *)
Fixpoint insert (x : A) (sorted : list A) : M (list A) :=
  match sorted with
  | [] => ret [x]
  | y :: ys =>
      let* order := comparefn x y in
      if (order <? 0)%float then ret (x :: y :: ys)
      else let* zs := insert x ys in ret (y :: zs)
  end.

Fixpoint sort_from (sorted todo : list A) : M (list A) :=
  match todo with
  | [] => ret sorted
  | x :: xs => let* sorted' := insert x sorted in sort_from sorted' xs
  end.

Definition Array_sort (l : list A) : M (list A) := sort_from [] l.
End Sort.

(** The comparator of the source: [() => Math.random() - 0.5]. *)
Definition random_order {A} (_ _ : A) : M float :=
  let* x := Math_random in ret (x - 0.5)%float.

(** [[...l].sort(() => Math.random() - 0.5)] *)
Definition shuffle {A} (l : list A) : M (list A) := Array_sort random_order l.

(** ** The question loader *)

(** A normalized question, as built at lines 46-53 of the source. *)
Record Question : Type := {
  id : value;
  question : string;
  options : list value;
  answer : string;
  explanation : value;
  feedback : value
}.

(** The callback of [response.data.map] (lines 34-54): [None] stands for
    the [null] the callback returns for a malformed record.  The two tests
    [typeof ... !== "string"] are the pattern matching on [VStr], the only
    values whose [typeof] is ["string"]. *)
Definition formatQuestion (q : value) : M (option Question) :=
  let* c := lift (Get q "content") in
  let content := or_else c (VObj ∅) in
  let* question_ := lift (Get content "question") in
  let* correctAnswer := lift (Get content "correctAnswer") in
  let* wrongAnswers := lift (Get content "wrongAnswers") in
  match question_, correctAnswer with
  | VStr question_text, VStr answer_text =>
      if negb (Array_isArray wrongAnswers) || (Array_length wrongAnswers <? 1)
      then ret None
      else
        let* _id := lift (Get q "_id") in
        let* id_ := (if truthy _id then ret _id else lift (Get q "id")) in
        let* shuffled := shuffle (spread wrongAnswers ++ [correctAnswer]) in
        let* explanation_ := lift (Get content "explanation") in
        ret (Some {| id := id_;
                     question := question_text;
                     options := shuffled;
                     answer := answer_text;
                     explanation := or_else explanation_ (VStr "");
                     feedback := or_else explanation_ (VStr "") |})
  | _, _ => ret None
  end.

(** [array.map(f)] for a callback in the loader monad, left to right. *)
Fixpoint Array_map {B} (f : value -> M B) (l : list value) : M (list B) :=
  match l with
  | [] => ret []
  | x :: xs =>
      let* y := f x in
      let* ys := Array_map f xs in
      ret (y :: ys)
  end.

(** [.filter(Boolean)] on the mapped array: the [null]s go, the question
    objects (truthy) stay. *)
Definition filter_Boolean (l : list (option Question)) : list Question :=
  omap (fun x => x) l.

(** [response.data.map(...)]: only an array has a callable [map] among the
    values of a payload. *)
Definition data_map {B} (data : value) (f : value -> M B) : M (list B) :=
  match data with
  | VArr batch => Array_map f batch
  | _ => throw (TypeError "response.data.map is not a function")
  end.

(** The outcome of [await questionsApi.getAllQuestions(...)]. *)
Inductive outcome : Type :=
| Resolved (response : value)
| Rejected (reason : value).

Definition await (o : outcome) : M value :=
  match o with
  | Resolved response => ret response
  | Rejected reason => throw reason
  end.

(** Lines 33-55: [formattedQuestions]. *)
Definition formattedQuestions (data : value) : M (list Question) :=
  let* mapped := data_map data formatQuestion in
  ret (filter_Boolean mapped).

(** The body of the [try] block after the two initial setters, up to the
    value handed to [setQuestions] (lines 27-62). *)
Definition fetchQuestions_try (o : outcome) : M (list Question) :=
  let* response := await o in
  let* data :=
    (if negb (truthy response) then throw (new_Error "Failed to fetch questions")
     else
       let* d := lift (Get response "data") in
       if negb (truthy d) then throw (new_Error "Failed to fetch questions")
       else ret d) in
  let* formatted := formattedQuestions data in
  if (Z.of_nat (length formatted) =? 0)
  then throw (new_Error "No valid questions available for this level.")
  else shuffle formatted.

(** ** Component state *)

(** The eight [useState] cells of the component (lines 8-15).  The counters
    are JavaScript numbers that only ever hold small integers. *)
Record State : Type := {
  selectedLevel : value;
  questions : list Question;
  currentQuestion : Z;
  selectedAnswer : value;
  score : Z;
  showResults : bool;
  loading : bool;
  error : value
}.

Definition initial : State :=
  {| selectedLevel := VNull; questions := []; currentQuestion := 0;
     selectedAnswer := VNull; score := 0; showResults := false;
     loading := false; error := VNull |}.

Definition setSelectedLevel (v : value) (s : State) : State :=
  {| selectedLevel := v; questions := questions s;
     currentQuestion := currentQuestion s; selectedAnswer := selectedAnswer s;
     score := score s; showResults := showResults s; loading := loading s;
     error := error s |}.

Definition setQuestions (v : list Question) (s : State) : State :=
  {| selectedLevel := selectedLevel s; questions := v;
     currentQuestion := currentQuestion s; selectedAnswer := selectedAnswer s;
     score := score s; showResults := showResults s; loading := loading s;
     error := error s |}.

Definition setCurrentQuestion (v : Z) (s : State) : State :=
  {| selectedLevel := selectedLevel s; questions := questions s;
     currentQuestion := v; selectedAnswer := selectedAnswer s;
     score := score s; showResults := showResults s; loading := loading s;
     error := error s |}.

Definition setSelectedAnswer (v : value) (s : State) : State :=
  {| selectedLevel := selectedLevel s; questions := questions s;
     currentQuestion := currentQuestion s; selectedAnswer := v;
     score := score s; showResults := showResults s; loading := loading s;
     error := error s |}.

Definition setScore (v : Z) (s : State) : State :=
  {| selectedLevel := selectedLevel s; questions := questions s;
     currentQuestion := currentQuestion s; selectedAnswer := selectedAnswer s;
     score := v; showResults := showResults s; loading := loading s;
     error := error s |}.

Definition setShowResults (v : bool) (s : State) : State :=
  {| selectedLevel := selectedLevel s; questions := questions s;
     currentQuestion := currentQuestion s; selectedAnswer := selectedAnswer s;
     score := score s; showResults := v; loading := loading s;
     error := error s |}.

Definition setLoading (v : bool) (s : State) : State :=
  {| selectedLevel := selectedLevel s; questions := questions s;
     currentQuestion := currentQuestion s; selectedAnswer := selectedAnswer s;
     score := score s; showResults := showResults s; loading := v;
     error := error s |}.

Definition setError (v : value) (s : State) : State :=
  {| selectedLevel := selectedLevel s; questions := questions s;
     currentQuestion := currentQuestion s; selectedAnswer := selectedAnswer s;
     score := score s; showResults := showResults s; loading := loading s;
     error := v |}.

(** [questions[i]] for a number [i] holding an integer: [None] stands for
    [undefined]. *)
Definition at_index {A} (l : list A) (i : Z) : option A :=
  if i <? 0 then None else l !! Z.to_nat i.

(** ** [fetchQuestions] *)

(** The synchronous start of [fetchQuestions], up to the [await]
    (lines 25-27). *)
Definition fetchQuestions_begin (s : State) : State :=
  setError VNull (setLoading true s).

(** The continuation after the [await]: the rest of the [try] block, the
    [catch] and the [finally] (lines 28-74).  The second component tells
    whether an exception leaves the function, which only the [catch] block
    itself can cause, when it reads [err.message]. *)
Definition fetchQuestions_settle (o : outcome) (r : rng) (s : State)
  : State * completion unit :=
  match fetchQuestions_try o r with
  | Normal (shuffledQuestions, _) =>
      (setLoading false
         (setShowResults false
            (setScore 0
               (setSelectedAnswer VNull
                  (setCurrentQuestion 0
                     (setQuestions shuffledQuestions s))))),
       Normal tt)
  | Throw err =>
      match Get err "message" with
      | Normal message =>
          (setLoading false
             (setError
                (or_else message
                   (VStr "Failed to load questions. Please try again.")) s),
           Normal tt)
      | Throw e => (setLoading false s, Throw e)
      end
  end.

(** A whole run of [fetchQuestions]. *)
Definition fetchQuestions (o : outcome) (r : rng) (s : State)
  : State * completion unit :=
  fetchQuestions_settle o r (fetchQuestions_begin s).

(** ** Event handlers *)

(** [handleLevelSelect] (lines 77-79) *)
Definition handleLevelSelect (level : value) (s : State) : State :=
  setSelectedLevel level s.

(** The effect on [selectedLevel] (lines 17-21), run after a render in which
    [selectedLevel] changed: it starts [fetchQuestions]. *)
Definition useEffect_selectedLevel (s : State) : State :=
  if truthy (selectedLevel s) then fetchQuestions_begin s else s.

(** [handleAnswer] (lines 81-88).  [score] and [questions[currentQuestion]]
    are the values of the render the handler belongs to.  Reading [.answer]
    of [undefined] throws after [setSelectedAnswer] has been queued. *)
Definition handleAnswer (option : value) (s : State)
  : State * completion unit :=
  if negb (truthy (selectedAnswer s)) then
    let s1 := setSelectedAnswer option s in
    match at_index (questions s) (currentQuestion s) with
    | None => (s1, Throw (TypeError (cannot_read VUndefined "answer")))
    | Some q =>
        if strict_equals_string option (answer q)
        then (setScore (score s + 1) s1, Normal tt)
        else (s1, Normal tt)
    end
  else (s, Normal tt).

(** [handleNext] (lines 90-97) *)
Definition handleNext (s : State) : State :=
  if currentQuestion s <? Z.of_nat (length (questions s)) - 1
  then setSelectedAnswer VNull (setCurrentQuestion (currentQuestion s + 1) s)
  else setShowResults true s.

(** [handleRestart] (lines 99-101) starts [fetchQuestions]. *)
Definition handleRestart (s : State) : State := fetchQuestions_begin s.

(** ** Rendering *)

(** The percentage of the results screen (line 148):
    [Math.round((score / questions.length) * 100)], in double arithmetic. *)
Definition percentage (score_ total : Z) : float :=
  Math_round ((of_Z score_ / of_Z total) * 100)%float.

(** What the component returns (lines 103-224), reduced to the data it shows
    and to the state of its controls. *)
Inductive View : Type :=
| LevelSelectorView
| LoadingView
| ErrorView (message : value)
| NoQuestionsView
| ResultsView (percent : float) (correct total : Z)
| QuestionView (q : Question) (position total : Z)
    (options_disabled next_disabled : bool).

(** What React accepts as the child of an element: any value but an
    object; an array is rendered element by element. *)
Fixpoint renderable (v : value) : bool :=
  match v with
  | VObj _ => false
  | VArr elems => forallb renderable elems
  | _ => true
  end.

(** The error React throws when it is given an object as a child; its
    message goes on to describe the object. *)
Definition invalid_child : value :=
  new_Error "Objects are not valid as a React child".

(** Rendering throws when [questions[currentQuestion]] is [undefined], and
    when a value it puts on screen is an object: the error message
    (line 119), an option (line 198), or the explanation (line 211), which
    is on screen once [selectedAnswer] is truthy. *)
Definition render (s : State) : completion View :=
  if negb (truthy (selectedLevel s)) then Normal LevelSelectorView
  else if loading s then Normal LoadingView
  else if truthy (error s) then
    if renderable (error s) then Normal (ErrorView (error s))
    else Throw invalid_child
  else if Z.of_nat (length (questions s)) =? 0 then Normal NoQuestionsView
  else if showResults s then
    Normal (ResultsView
              (percentage (score s) (Z.of_nat (length (questions s))))
              (score s) (Z.of_nat (length (questions s))))
  else
    match at_index (questions s) (currentQuestion s) with
    | None => Throw (TypeError (cannot_read VUndefined "question"))
    | Some q =>
        if forallb renderable (options q)
           && (negb (truthy (selectedAnswer s)) || renderable (explanation q))
        then
          Normal (QuestionView q (currentQuestion s + 1)
                    (Z.of_nat (length (questions s)))
                    (truthy (selectedAnswer s))
                    (negb (truthy (selectedAnswer s))))
        else Throw invalid_child
    end.

(** ** User actions *)

(** What the user can do to the component: pick a level in the level
    selector, press the [n]-th option button, the next button, the two
    "Try Again" buttons (of the results screen and of the error screen) and
    the "Change Level" buttons. *)
Inductive action : Type :=
| ChooseLevel (level : value)
| SelectOption (n : nat)
| Advance
| Restart
| Retry
| ChangeLevel.

(** The controls a view contains, and whether they react: a button that is
    not rendered or carries [disabled] fires no handler. *)
Definition enabled (v : View) (a : action) : bool :=
  match v, a with
  | LevelSelectorView, ChooseLevel _ => true
  | ErrorView _, (Retry | ChangeLevel) => true
  | NoQuestionsView, ChangeLevel => true
  | ResultsView _ _ _, (Restart | ChangeLevel) => true
  | QuestionView q _ _ options_disabled _, SelectOption n =>
      negb options_disabled && bool_decide (is_Some (options q !! n))
  | QuestionView _ _ _ _ next_disabled, Advance => negb next_disabled
  | _, _ => false
  end.

(** The handler behind each control, followed by the effect on
    [selectedLevel] where the handler changes it. *)
Definition handler (a : action) (s : State) : State * completion unit :=
  match a with
  | ChooseLevel level =>
      (useEffect_selectedLevel (handleLevelSelect level s), Normal tt)
  | SelectOption n =>
      match at_index (questions s) (currentQuestion s) with
      | Some q =>
          match options q !! n with
          | Some option => handleAnswer option s
          | None => (s, Normal tt)
          end
      | None => (s, Normal tt)
      end
  | Advance => (handleNext s, Normal tt)
  | Restart => (handleRestart s, Normal tt)
  | Retry => (fetchQuestions_begin s, Normal tt)
  | ChangeLevel => (useEffect_selectedLevel (setSelectedLevel VNull s), Normal tt)
  end.

(** A user action on the rendered component.  A component that failed to
    render is unmounted and has no control left to act on. *)
Definition click (a : action) (s : State) : State * completion unit :=
  match render s with
  | Normal v => if enabled v a then handler a s else (s, Normal tt)
  | Throw _ => (s, Normal tt)
  end.

(** ** The state machine of the specification *)

(** The phases of the quiz runner, as the specification names them. *)
Inductive phase : Type :=
| AwaitingLevel
| Loading
| Error
| Answering
| Revealed
| Finished.

(** The actions the specification lists for each phase: a level choice in
    [AwaitingLevel], one answer selection in [Answering], the advance action
    in [Revealed], restart and change level in [Finished], retry and change
    level in [Error], nothing in [Loading]. *)
Definition listed (p : phase) (a : action) : bool :=
  match p, a with
  | AwaitingLevel, ChooseLevel _ => true
  | Answering, SelectOption _ => true
  | Revealed, Advance => true
  | Finished, (Restart | ChangeLevel) => true
  | Error, (Retry | ChangeLevel) => true
  | _, _ => false
  end.

(** The phase a component state is in, read off the tests of the render
    function in their order.  A state with a level, no error and no
    questions (the "No questions available" screen) is none of the phases.
    [Revealed] is the state in which the component shows the markers and
    the explanation, that is, in which [selectedAnswer] is truthy: a state
    in which a falsy option was selected is still [Answering]. *)
Definition phase_of (s : State) : option phase :=
  if negb (truthy (selectedLevel s)) then Some AwaitingLevel
  else if loading s then Some Loading
  else if truthy (error s) then Some Error
  else if Z.of_nat (length (questions s)) =? 0 then None
  else if showResults s then Some Finished
  else if truthy (selectedAnswer s) then Some Revealed
  else Some Answering.

(** The phases the specification lets a listed action lead to. *)
Definition targets (p : phase) (a : action) : list phase :=
  match p, a with
  | AwaitingLevel, ChooseLevel _ => [Loading]
  | Answering, SelectOption _ => [Revealed]
  | Revealed, Advance => [Answering; Finished]
  | Finished, Restart => [Loading]
  | Finished, ChangeLevel => [AwaitingLevel]
  | Error, Retry => [Loading]
  | Error, ChangeLevel => [AwaitingLevel]
  | _, _ => []
  end.

(** The value an action carries, where it carries one: the chosen level,
    or the option behind the [n]-th button of the current question. *)
Definition carried (a : action) (s : State) : option value :=
  match a with
  | ChooseLevel level => Some level
  | SelectOption n =>
      match at_index (questions s) (currentQuestion s) with
      | Some q => options q !! n
      | None => None
      end
  | _ => None
  end.

(** ** Records, as the loader's tests and as the specification see them *)

Definition is_string (v : value) : bool :=
  match v with
  | VStr _ => true
  | _ => false
  end.

(** [q.content || {}] of a record that is neither [null] nor [undefined]. *)
Definition content_of (q : value) : value :=
  or_else (own_property q "content") (VObj ∅).

(** The records the loader keeps: [question] and [correctAnswer] are
    strings and [wrongAnswers] is an array with at least one element. *)
Definition valid_record (q : value) : bool :=
  negb (nullish q)
  && is_string (own_property (content_of q) "question")
  && is_string (own_property (content_of q) "correctAnswer")
  && Array_isArray (own_property (content_of q) "wrongAnswers")
  && (1 <=? Array_length (own_property (content_of q) "wrongAnswers")).

(** The records the specification calls valid: as above, and every element
    of [wrongAnswers] is a string. *)
Definition spec_valid_record (q : value) : bool :=
  valid_record q
  && forallb is_string (spread (own_property (content_of q) "wrongAnswers")).

Definition count_valid (batch : list value) : nat :=
  length (List.filter valid_record batch).

(** The question built from a valid record, up to the order of its
    options. *)
Definition built_from (q : value) (Q : Question) : Prop :=
  own_property (content_of q) "question" = VStr (question Q)
  /\ own_property (content_of q) "correctAnswer" = VStr (answer Q)
  /\ options Q ≡ₚ
       spread (own_property (content_of q) "wrongAnswers") ++ [VStr (answer Q)]
  /\ id Q = or_else (own_property q "_id") (own_property q "id")
  /\ explanation Q = or_else (own_property (content_of q) "explanation") (VStr "")
  /\ feedback Q = explanation Q.

(** ** Sample payloads and sessions *)

Definition record (question_ correctAnswer wrongAnswers : value) : value :=
  VObj {[ "content" :=
            VObj {[ "question" := question_;
                    "correctAnswer" := correctAnswer;
                    "wrongAnswers" := wrongAnswers ]} ]}.

Definition payload (batch : list value) : value :=
  VObj {[ "data" := VArr batch ]}.

Definition capital : value :=
  record (VStr "Capital of France?") (VStr "Paris")
    (VArr [VStr "Rome"; VStr "Oslo"]).

Definition numeric_distractor : value :=
  record (VStr "2 + 2 = ?") (VStr "4") (VArr [VNum 5]).

Definition empty_answer : value :=
  record (VStr "Which string is empty?") (VStr "") (VArr [VStr "x"]).

Definition no_distractors : value :=
  record (VStr "1 + 1 = ?") (VStr "2") (VArr []).

(** A random source that alternates between 0.25 and 0.75. *)
Definition coin : rng := fun n => if Nat.even n then 0.25%float else 0.75%float.

(** The component after the user has picked a level: the fetch is pending. *)
Definition level_chosen : State :=
  fst (click (ChooseLevel (VStr "beginner")) initial).

(** A loaded one-question session, the same session once the user has
    picked the right option ("Paris", the second button), and once the user
    has then pressed the next button. *)
Definition one_question_session : State :=
  fst (fetchQuestions_settle (Resolved (payload [capital])) coin level_chosen).

Definition revealed_session : State :=
  fst (click (SelectOption 1) one_question_session).

Definition finished_session : State :=
  fst (click Advance revealed_session).

(** A loaded session whose only question has the empty string as its
    answer; the shuffle puts that option first. *)
Definition empty_answer_session : State :=
  fst (fetchQuestions_settle (Resolved (payload [empty_answer])) coin
         level_chosen).

(** A loaded session of two questions. *)
Definition two_question_session : State :=
  fst (fetchQuestions_settle (Resolved (payload [capital; numeric_distractor]))
         coin level_chosen).

(** A loaded session of five questions, and a sequence of user actions
    played on the component. *)
Definition numbered (n : string) : value :=
  record (VStr ("Question " ++ n)) (VStr ("right " ++ n))
    (VArr [VStr ("wrong " ++ n)]).

Definition five_question_session : State :=
  fst (fetchQuestions_settle
         (Resolved (payload [numbered "1"; numbered "2"; numbered "3";
                             numbered "4"; numbered "5"]))
         coin level_chosen).

Fixpoint play (actions : list action) (s : State) : State :=
  match actions with
  | [] => s
  | a :: rest => play rest (fst (click a s))
  end.

(** ** Sessions reachable through the handlers *)

(** The states the answer and advance handlers lead to from [s0], with any
    argument and in any order. *)
Inductive reachable (s0 : State) : State -> Prop :=
| reachable_start : reachable s0 s0
| reachable_answer s option :
    reachable s0 s -> reachable s0 (fst (handleAnswer option s))
| reachable_next s :
    reachable s0 s -> reachable s0 (handleNext s).

(** What a successful [fetchQuestions] leaves behind (lines 64-68). *)
Definition freshly_loaded (s : State) : Prop :=
  questions s <> [] /\ currentQuestion s = 0 /\ selectedAnswer s = VNull
  /\ score s = 0 /\ showResults s = false.

(** ** The question screen in detail *)

(** [a === b] on two values.  Two arrays, or two objects, are equal when
    they are the same object, which a JSON tree does not tell: [None]. *)
Definition strict_equals (a b : value) : option bool :=
  match a, b with
  | VUndefined, VUndefined => Some true
  | VNull, VNull => Some true
  | VBool x, VBool y => Some (Bool.eqb x y)
  | VNum x, VNum y => Some (x =? y)%float
  | VStr x, VStr y => Some (String.eqb x y)
  | VArr _, VArr _ => None
  | VObj _, VObj _ => None
  | _, _ => Some false
  end.

(** A value that is not an object: [===] on it is a comparison of values. *)
Definition primitive (v : value) : bool :=
  match v with
  | VArr _ | VObj _ => false
  | _ => true
  end.

(** What stands in a [{...}] slot of the markup: a value, or an element.
    [{a && <X />}] is the value [a] when [a] is falsy. *)
Inductive child : Type :=
| Value (v : value)
| Element (name : string).

(** React renders nothing for [undefined], [null], booleans and the empty
    string; it renders numbers, [0] and [NaN] included, as text. *)
Definition renders_nothing (c : child) : bool :=
  match c with
  | Value (VUndefined | VNull | VBool _) => true
  | Value (VStr s) => String.eqb s ""
  | _ => false
  end.

(** One option button (lines 184-203): its caption, the variable part of
    its class, its [disabled] attribute and the two icon slots. *)
Record OptionButton : Type := {
  caption : value;
  className : string;
  disabled : bool;
  check_slot : child;
  cross_slot : child
}.

Definition option_button (s : State) (q : Question) (option : value)
  : Datatypes.option OptionButton :=
  let is_answer := strict_equals_string option (answer q) in
  if truthy (selectedAnswer s) then
    match strict_equals option (selectedAnswer s) with
    | Some is_selected =>
        Some {| caption := option;
                className :=
                  if is_answer then "bg-green-200 border-green-500"
                  else if is_selected then "bg-red-200 border-red-500"
                  else "bg-white";
                disabled := true;
                check_slot :=
                  if is_answer then Element "CheckCircle"
                  else Value (VBool false);
                cross_slot :=
                  if is_selected then
                    if negb is_answer then Element "XCircle"
                    else Value (VBool false)
                  else Value (VBool false) |}
    | None => None
    end
  else
    Some {| caption := option;
            className := "bg-white hover:bg-gray-50";
            disabled := false;
            check_slot := Value (selectedAnswer s);
            cross_slot := Value (selectedAnswer s) |}.

(** The buttons of a question, in the order of its options (line 183). *)
Definition option_buttons (s : State) (q : Question)
  : list (Datatypes.option OptionButton) :=
  map (option_button s q) (options q).

(** The explanation box (lines 205-213): absent while [selectedAnswer] is
    falsy, otherwise a box with the variable part of its class and the
    explanation of the question. *)
Inductive ExplanationBox : Type :=
| NoBox (slot : value)
| Box (boxClass : string) (text : value).

Definition explanation_box (s : State) (q : Question) : ExplanationBox :=
  if truthy (selectedAnswer s) then
    Box (if strict_equals_string (selectedAnswer s) (answer q)
         then "bg-green-100 text-green-500"
         else "bg-red-100 text-red-500")
        (explanation q)
  else NoBox (selectedAnswer s).

(** The caption of the next button (line 219). *)
Definition next_label (s : State) : string :=
  if currentQuestion s <? Z.of_nat (length (questions s)) - 1
  then "Next Question"
  else "Show Results".

(** The width of the progress bar in percent (line 175):
    [(currentQuestion / questions.length) * 100], on doubles. *)
Definition progress (position total : Z) : float :=
  ((of_Z position / of_Z total) * 100)%float.

Definition progress_width (s : State) : float :=
  progress (currentQuestion s) (Z.of_nat (length (questions s))).

(** ** A whole quiz *)





(** ** The component over time *)


(** ** Exact percentages, and checks over all small quizzes *)

(** [100 * k / total] rounded to the nearest integer, ties going up, in
    exact arithmetic. *)
Definition exact_percentage (k total : Z) : Z :=
  (200 * k + total) / (2 * total).

(** [check k total] for every [1 <= total <= n] and [0 <= k <= total]. *)
Definition all_upto (n : nat) (check : Z -> Z -> bool) : bool :=
  forallb
    (fun total =>
       forallb (fun k => check (Z.of_nat k) (Z.of_nat total))
         (seq 0 (S total)))
    (seq 1 n).

Definition percentage_is_exact (k total : Z) : bool :=
  PrimFloat.Leibniz.eqb (percentage k total) (of_Z (exact_percentage k total)).

Definition progress_is_sound (k total : Z) : bool :=
  if k <? total then
    (0 <=? progress k total)%float
    && (progress k total <? 100)%float
    && (if k =? 0 then PrimFloat.Leibniz.eqb (progress k total) 0%float
        else (progress (k - 1) total <? progress k total)%float)
  else true.

(** * Properties *)

(** ** The loader monad *)

Lemma bind_inv {A B} (c : M A) (k : A -> M B) r b r2 :
  bind c k r = Normal (b, r2) ->
  exists a r1, c r = Normal (a, r1) /\ k a r1 = Normal (b, r2).
Proof.
  unfold bind. destruct (c r) as [[a r1]|e]; [eauto | discriminate].
Qed.

Lemma bind_Normal {A B} (c : M A) (k : A -> M B) r a r1 :
  c r = Normal (a, r1) -> bind c k r = k a r1.
Proof. unfold bind. intros ->. reflexivity. Qed.

Lemma bind_Throw {A B} (c : M A) (k : A -> M B) r e :
  c r = Throw e -> bind c k r = Throw e.
Proof. unfold bind. intros ->. reflexivity. Qed.

Lemma lift_Get_ok v k r :
  nullish v = false -> lift (Get v k) r = Normal (own_property v k, r).
Proof. unfold lift, Get. intros ->. reflexivity. Qed.

(** ** Sorting with an arbitrary comparator *)

Section SortFacts.
Context {A : Type}.
Variable comparefn : A -> A -> M float.

Lemma insert_perm x sorted r l r' :
  insert comparefn x sorted r = Normal (l, r') -> l ≡ₚ x :: sorted.
Proof.
  revert r l r'. induction sorted as [|y ys IH]; intros r l r' H; simpl in H.
  - injection H as <- _. reflexivity.
  - apply bind_inv in H as (order & r1 & _ & H).
    destruct (order <? 0)%float.
    + injection H as <- _. reflexivity.
    + apply bind_inv in H as (zs & r2 & Hzs & H).
      injection H as <- _. apply IH in Hzs. rewrite Hzs. apply perm_swap.
Qed.

Lemma sort_from_perm todo sorted r l r' :
  sort_from comparefn sorted todo r = Normal (l, r') -> l ≡ₚ sorted ++ todo.
Proof.
  revert sorted r. induction todo as [|x xs IH]; intros sorted r H; simpl in H.
  - injection H as <- _. by rewrite app_nil_r.
  - apply bind_inv in H as (sorted' & r1 & Hins & H).
    apply IH in H. apply insert_perm in Hins.
    rewrite H, Hins. simpl. apply Permutation_middle.
Qed.

Lemma Array_sort_perm l r l' r' :
  Array_sort comparefn l r = Normal (l', r') -> l' ≡ₚ l.
Proof. apply sort_from_perm. Qed.

Hypothesis comparefn_returns :
  forall x y r, exists order r', comparefn x y r = Normal (order, r').

Lemma insert_returns x sorted r :
  exists l r', insert comparefn x sorted r = Normal (l, r').
Proof.
  revert r. induction sorted as [|y ys IH]; intros r; simpl.
  - by eexists _, _.
  - destruct (comparefn_returns x y r) as (order & r1 & Hc).
    rewrite (bind_Normal _ _ _ _ _ Hc).
    destruct (order <? 0)%float; [by eexists _, _|].
    destruct (IH r1) as (zs & r2 & Hzs).
    rewrite (bind_Normal _ _ _ _ _ Hzs). by eexists _, _.
Qed.

Lemma sort_from_returns todo sorted r :
  exists l r', sort_from comparefn sorted todo r = Normal (l, r').
Proof.
  revert sorted r. induction todo as [|x xs IH]; intros sorted r; simpl.
  - by eexists _, _.
  - destruct (insert_returns x sorted r) as (sorted' & r1 & Hins).
    rewrite (bind_Normal _ _ _ _ _ Hins). apply IH.
Qed.
End SortFacts.

Lemma random_order_returns {A} (x y : A) r :
  exists order r', random_order x y r = Normal (order, r').
Proof. by eexists _, _. Qed.

Lemma shuffle_returns {A} (l : list A) r :
  exists l' r', shuffle l r = Normal (l', r').
Proof. apply sort_from_returns, @random_order_returns. Qed.

Lemma shuffle_perm {A} (l : list A) r l' r' :
  shuffle l r = Normal (l', r') -> l' ≡ₚ l.
Proof. apply Array_sort_perm. Qed.

(** ** The callback on one record *)

Lemma truthy_not_nullish v : truthy v = true -> nullish v = false.
Proof. by destruct v. Qed.

(** [typeof v !== "string"] fails exactly on the strings, which is how the
    callback's pattern matching reads the two tests. *)
Lemma typeof_string v : typeof v = "string" <-> exists s, v = VStr s.
Proof.
  split; [|by intros [s ->]]. destruct v; try done. by eexists.
Qed.

Lemma content_of_not_nullish q : nullish (content_of q) = false.
Proof.
  unfold content_of, or_else.
  destruct (truthy (own_property q "content")) eqn:E; [|done].
  by apply truthy_not_nullish.
Qed.

Ltac read_property H :=
  rewrite (bind_Normal _ _ _ _ _ (lift_Get_ok _ _ _ H)); cbv beta zeta.

Lemma formatQuestion_nullish q r :
  nullish q = true ->
  formatQuestion q r = Throw (TypeError (cannot_read q "content")).
Proof.
  intros Hq. unfold formatQuestion, bind, lift, Get. by rewrite Hq.
Qed.

Lemma formatQuestion_invalid q r :
  nullish q = false -> valid_record q = false ->
  formatQuestion q r = Normal (None, r).
Proof.
  intros Hq Hv. unfold formatQuestion. read_property Hq.
  fold (content_of q). pose proof (content_of_not_nullish q) as Hc.
  do 3 read_property Hc.
  unfold valid_record in Hv. rewrite Hq in Hv. simpl in Hv.
  destruct (own_property (content_of q) "question"); try done.
  destruct (own_property (content_of q) "correctAnswer"); try done.
  simpl in Hv.
  destruct (Array_isArray _); simpl in *; [|done].
  replace (_ <? 1) with true by lia. done.
Qed.

Lemma formatQuestion_valid q r :
  valid_record q = true ->
  exists Q r', formatQuestion q r = Normal (Some Q, r') /\ built_from q Q.
Proof.
  intros Hv. unfold valid_record in Hv.
  repeat (apply andb_prop in Hv as [Hv ?]).
  apply negb_true_iff in Hv as Hq.
  unfold formatQuestion. read_property Hq.
  fold (content_of q). pose proof (content_of_not_nullish q) as Hc.
  do 3 read_property Hc.
  destruct (own_property (content_of q) "question") as [| | | |qt| |] eqn:Eq;
    try done.
  destruct (own_property (content_of q) "correctAnswer") as [| | | |at_| |] eqn:Ea;
    try done.
  replace (Array_isArray _) with true by done.
  replace (_ <? 1) with false by lia.
  change (negb true || false) with false. cbv iota.
  read_property Hq.
  destruct (shuffle (spread (own_property (content_of q) "wrongAnswers")
                       ++ [VStr at_])
              r) as [[opts r1]|e] eqn:Es.
  2:{ destruct (shuffle_returns
                  (spread (own_property (content_of q) "wrongAnswers")
                     ++ [VStr at_]) r) as (? & ? & E).
      congruence. }
  apply shuffle_perm in Es as Hp.
  assert (forall (k : value -> M (option Question)),
      bind (if truthy (own_property q "_id") then ret (own_property q "_id")
            else lift (Get q "id")) k r
      = k (or_else (own_property q "_id") (own_property q "id")) r) as ->.
  { intros k. unfold or_else.
    destruct (truthy (own_property q "_id")); [done|].
    by rewrite (bind_Normal _ _ _ _ _ (lift_Get_ok _ _ _ Hq)). }
  rewrite (bind_Normal _ _ _ _ _ Es). read_property Hc.
  eexists _, _. split; [reflexivity|].
  unfold built_from; simpl. rewrite Eq, Ea. done.
Qed.

(** ** The map and filter over a batch *)

Lemma Array_map_formatQuestion batch r mapped r' :
  Array_map formatQuestion batch r = Normal (mapped, r') ->
  Forall (fun q => nullish q = false) batch
  /\ Forall2 built_from (List.filter valid_record batch) (filter_Boolean mapped).
Proof.
  revert r mapped r'.
  induction batch as [|q batch IH]; intros r mapped r' H; simpl in H.
  - injection H as <- _. split; constructor.
  - apply bind_inv in H as (y & r1 & Hy & H).
    apply bind_inv in H as (ys & r2 & Hys & H).
    injection H as <- _. apply IH in Hys as [Hn Hb].
    destruct (nullish q) eqn:Hq.
    { by rewrite formatQuestion_nullish in Hy. }
    split; [by constructor|]. simpl.
    destruct (valid_record q) eqn:Hv.
    + destruct (formatQuestion_valid q r Hv) as (Q & r1' & HQ & HbQ).
      rewrite HQ in Hy. injection Hy as <- _. simpl. by constructor.
    + rewrite (formatQuestion_invalid q r Hq Hv) in Hy.
      by injection Hy as <- _.
Qed.

Lemma Array_map_formatQuestion_returns batch r :
  Forall (fun q => nullish q = false) batch ->
  exists mapped r', Array_map formatQuestion batch r = Normal (mapped, r').
Proof.
  intros Hn. revert r.
  induction Hn as [|q batch Hq _ IH]; intros r; simpl.
  - by eexists _, _.
  - assert (exists y r1, formatQuestion q r = Normal (y, r1)) as (y & r1 & Hy).
    { destruct (valid_record q) eqn:Hv.
      - destruct (formatQuestion_valid q r Hv) as (Q & r1 & HQ & _).
        by eexists _, _.
      - eexists _, _. by apply formatQuestion_invalid. }
    rewrite (bind_Normal _ _ _ _ _ Hy).
    destruct (IH r1) as (ys & r2 & Hys).
    rewrite (bind_Normal _ _ _ _ _ Hys). by eexists _, _.
Qed.

Lemma Array_map_formatQuestion_throws batch r :
  Exists (fun q => nullish q = true) batch ->
  exists e, Array_map formatQuestion batch r = Throw e.
Proof.
  intros Hn. revert r.
  induction Hn as [q batch Hq|q batch _ IH]; intros r; simpl.
  - eexists. apply bind_Throw. by apply formatQuestion_nullish.
  - unfold bind at 1. destruct (formatQuestion q r) as [[y r1]|e]; [|eauto].
    destruct (IH r1) as (e & He). rewrite (bind_Throw _ _ _ _ He). eauto.
Qed.

Lemma formattedQuestions_built batch r formatted r' :
  formattedQuestions (VArr batch) r = Normal (formatted, r') ->
  Forall (fun q => nullish q = false) batch
  /\ Forall2 built_from (List.filter valid_record batch) formatted.
Proof.
  unfold formattedQuestions, data_map. intros H.
  apply bind_inv in H as (mapped & r1 & Hm & H). injection H as <- _.
  by apply Array_map_formatQuestion in Hm.
Qed.

Lemma formattedQuestions_returns batch r :
  Forall (fun q => nullish q = false) batch ->
  exists formatted r', formattedQuestions (VArr batch) r = Normal (formatted, r').
Proof.
  intros Hn. unfold formattedQuestions, data_map.
  destruct (Array_map_formatQuestion_returns batch r Hn) as (m & r1 & Hm).
  rewrite (bind_Normal _ _ _ _ _ Hm). by eexists _, _.
Qed.

Lemma built_from_answer_in_options q Q : built_from q Q -> VStr (answer Q) ∈ options Q.
Proof.
  intros (_ & _ & Hp & _). rewrite Hp. set_solver.
Qed.

(** ** The [try] block *)

Lemma response_with_data response batch :
  own_property response "data" = VArr batch ->
  truthy response = true /\ Get response "data" = Normal (VArr batch).
Proof.
  intros H. destruct response; try done. split; [done|].
  unfold Get. simpl. by rewrite <- H.
Qed.

(** With a payload that carries an array, the [try] block is the map and
    filter, the emptiness test and the shuffle. *)
Lemma fetchQuestions_try_batch response batch r :
  own_property response "data" = VArr batch ->
  fetchQuestions_try (Resolved response) r =
  bind (formattedQuestions (VArr batch))
    (fun formatted =>
       if Z.of_nat (length formatted) =? 0
       then throw (new_Error "No valid questions available for this level.")
       else shuffle formatted) r.
Proof.
  intros H. apply response_with_data in H as [Ht Hg].
  unfold fetchQuestions_try. unfold bind at 1. simpl.
  rewrite Ht. simpl. unfold bind at 1. unfold bind at 1.
  unfold lift. rewrite Hg. reflexivity.
Qed.

Lemma fetchQuestions_try_success response batch r :
  own_property response "data" = VArr batch ->
  Forall (fun q => nullish q = false) batch ->
  (1 <= count_valid batch)%nat ->
  exists formatted r1 shuffled r2,
    formattedQuestions (VArr batch) r = Normal (formatted, r1)
    /\ Forall2 built_from (List.filter valid_record batch) formatted
    /\ fetchQuestions_try (Resolved response) r = Normal (shuffled, r2)
    /\ shuffled ≡ₚ formatted.
Proof.
  intros Hd Hn Hc.
  destruct (formattedQuestions_returns batch r Hn) as (formatted & r1 & Hf).
  apply formattedQuestions_built in Hf as Hb. destruct Hb as [_ Hb].
  destruct (shuffle_returns formatted r1) as (shuffled & r2 & Hs).
  exists formatted, r1, shuffled, r2. repeat split; try done.
  - rewrite (fetchQuestions_try_batch _ _ _ Hd), (bind_Normal _ _ _ _ _ Hf).
    apply Forall2_length in Hb. unfold count_valid in Hc.
    replace (_ =? 0) with false by lia. done.
  - by apply shuffle_perm in Hs.
Qed.


Lemma fetchQuestions_try_rejected reason r :
  fetchQuestions_try (Rejected reason) r = Throw reason.
Proof. reflexivity. Qed.

Lemma fetchQuestions_try_no_payload response r :
  truthy response = false \/ truthy (own_property response "data") = false ->
  fetchQuestions_try (Resolved response) r =
  Throw (new_Error "Failed to fetch questions").
Proof.
  intros H. unfold fetchQuestions_try. unfold bind at 1. simpl.
  destruct (truthy response) eqn:Ht; [|done]. destruct H as [|H]; [done|].
  simpl. unfold bind at 1. unfold bind at 1.
  rewrite (lift_Get_ok _ _ _ (truthy_not_nullish _ Ht)). by rewrite H.
Qed.

(** A result of the [try] block comes from an array payload: it is a
    shuffle of the questions built from the valid records. *)
Lemma fetchQuestions_try_inv response r shuffled r2 :
  fetchQuestions_try (Resolved response) r = Normal (shuffled, r2) ->
  exists batch formatted r1,
    own_property response "data" = VArr batch
    /\ formattedQuestions (VArr batch) r = Normal (formatted, r1)
    /\ Forall2 built_from (List.filter valid_record batch) formatted
    /\ formatted <> []
    /\ shuffled ≡ₚ formatted.
Proof.
  intros H. unfold fetchQuestions_try in H.
  apply bind_inv in H as (resp & r0 & Hr & H). injection Hr as <- <-.
  apply bind_inv in H as (data & r0 & Hd & H).
  destruct (truthy response) eqn:Ht; [|done]. simpl in Hd.
  apply bind_inv in Hd as (d & r0' & Hg & Hd).
  rewrite (lift_Get_ok _ _ _ (truthy_not_nullish _ Ht)) in Hg.
  injection Hg as <- <-.
  destruct (truthy (own_property response "data")) eqn:Htd; [|done].
  injection Hd as <- <-.
  apply bind_inv in H as (formatted & r1 & Hf & H).
  destruct (own_property response "data") as [| | | | |batch|] eqn:Ed;
    try done.
  exists batch, formatted, r1.
  apply formattedQuestions_built in Hf as Hb. destruct Hb as [_ Hb].
  destruct formatted as [|Q formatted]; [done|].
  apply shuffle_perm in H. done.
Qed.

(** Whatever the [try] block throws on a resolved request is an [Error]
    object: one of the two the source creates, or the engine's
    [TypeError]. *)
Lemma Array_map_formatQuestion_Throw batch r e :
  Array_map formatQuestion batch r = Throw e -> exists m, e = new_Error m.
Proof.
  revert r. induction batch as [|q batch IH]; intros r H; simpl in H; [done|].
  unfold bind at 1 in H.
  destruct (formatQuestion q r) as [[y r1]|e'] eqn:Hy.
  - unfold bind at 1 in H.
    destruct (Array_map formatQuestion batch r1) as [[ys r2]|e'] eqn:Hys;
      [done|].
    injection H as <-. eauto.
  - injection H as <-. destruct (nullish q) eqn:Hq.
    + rewrite formatQuestion_nullish in Hy by done. injection Hy as <-.
      by eexists.
    + destruct (valid_record q) eqn:Hv.
      * destruct (formatQuestion_valid q r Hv) as (? & ? & ? & _). congruence.
      * rewrite formatQuestion_invalid in Hy; done.
Qed.

Lemma fetchQuestions_try_Throw response r e :
  fetchQuestions_try (Resolved response) r = Throw e ->
  exists m, e = new_Error m.
Proof.
  unfold fetchQuestions_try. unfold bind at 1. simpl. unfold bind at 1.
  destruct (truthy response) eqn:Ht; simpl; [|intros [= <-]; by eexists].
  unfold bind at 1.
  rewrite (lift_Get_ok _ _ _ (truthy_not_nullish _ Ht)).
  destruct (truthy (own_property response "data")) eqn:Htd; simpl;
    [|intros [= <-]; by eexists].
  unfold formattedQuestions, data_map. unfold bind at 1. unfold bind at 1.
  destruct (own_property response "data") as [| | | | |batch|] eqn:Ed;
    try (intros [= <-]; by eexists).
  destruct (Array_map formatQuestion batch r) as [[mapped r1]|e'] eqn:Hm.
  - simpl. destruct (_ =? 0); [intros [= <-]; by eexists|].
    intros H. destruct (shuffle_returns (filter_Boolean mapped) r1)
      as (? & ? & ?). congruence.
  - intros [= <-]. by apply Array_map_formatQuestion_Throw in Hm.
Qed.

(** ** The loader *)

Lemma fetchQuestions_success o r s shuffled r' :
  fetchQuestions_try o r = Normal (shuffled, r') ->
  fetchQuestions o r s =
  ({| selectedLevel := selectedLevel s; questions := shuffled;
      currentQuestion := 0; selectedAnswer := VNull; score := 0;
      showResults := false; loading := false; error := VNull |}, Normal tt).
Proof.
  intros H. unfold fetchQuestions, fetchQuestions_settle. by rewrite H.
Qed.

Lemma fetchQuestions_Error o r s m :
  fetchQuestions_try o r = Throw (new_Error m) ->
  fetchQuestions o r s =
  (setLoading false
     (setError (or_else (VStr m) (VStr "Failed to load questions. Please try again."))
        (fetchQuestions_begin s)),
   Normal tt).
Proof.
  intros H. unfold fetchQuestions, fetchQuestions_settle. by rewrite H.
Qed.

(** C1 (as amended): the loader never throws to its caller on a resolved
    request, whatever the response holds; a record whose [question] or
    [correctAnswer] is not a string, or whose [wrongAnswers] is not an array
    with at least one element, is not a valid record; and when the loader
    installs a question sequence, that sequence is a reordering of the
    questions built from the valid records of the batch, one per valid
    record, so that no other record contributes a question.  When the
    loader fails, the installed sequence is the previous one. *)
Theorem malformed_records_are_skipped (s : State) (response : value) (r : rng) :
  snd (fetchQuestions (Resolved response) r s) = Normal tt
  /\ (forall q,
        is_string (own_property (content_of q) "question") = false
        \/ is_string (own_property (content_of q) "correctAnswer") = false
        \/ Array_isArray (own_property (content_of q) "wrongAnswers") = false
        \/ Array_length (own_property (content_of q) "wrongAnswers") < 1 ->
        valid_record q = false)
  /\ match fetchQuestions_try (Resolved response) r with
     | Normal (shuffled, _) =>
         questions (fst (fetchQuestions (Resolved response) r s)) = shuffled
         /\ exists batch formatted,
              own_property response "data" = VArr batch
              /\ shuffled ≡ₚ formatted
              /\ Forall2 built_from (List.filter valid_record batch) formatted
     | Throw _ =>
         questions (fst (fetchQuestions (Resolved response) r s)) = questions s
     end.
Proof.
  split; [|split].
  - destruct (fetchQuestions_try (Resolved response) r) as [[sh r']|e] eqn:H.
    + by rewrite (fetchQuestions_success _ _ _ _ _ H).
    + destruct (fetchQuestions_try_Throw _ _ _ H) as [m ->].
      by rewrite (fetchQuestions_Error _ _ _ _ H).
  - intros q Hq. unfold valid_record.
    destruct Hq as [-> | [-> | [-> | Hq]]];
      rewrite ?andb_false_r; try done.
    apply andb_false_iff. right. lia.
  - destruct (fetchQuestions_try (Resolved response) r) as [[sh r']|e] eqn:H.
    + rewrite (fetchQuestions_success _ _ _ _ _ H). split; [done|].
      apply fetchQuestions_try_inv in H
        as (batch & formatted & r1 & Hd & _ & Hb & _ & Hp).
      by exists batch, formatted.
    + destruct (fetchQuestions_try_Throw _ _ _ H) as [m ->].
      by rewrite (fetchQuestions_Error _ _ _ _ H).
Qed.

Lemma malformed_records_are_skipped_witness :
  valid_record no_distractors = false
  /\ snd (fetchQuestions (Resolved (payload [no_distractors; capital])) coin
            level_chosen) = Normal tt.
Proof.
  destruct (malformed_records_are_skipped level_chosen
              (payload [no_distractors; capital]) coin) as (H1 & H2 & _).
  split; [|exact H1].
  apply H2. right. right. right. vm_compute. reflexivity.
Defined.

(** C1, the claim as stated fails: a record whose [wrongAnswers] holds a
    number is not a non-empty sequence of strings, yet whatever the random
    source answers the loader succeeds, installs the one question built
    from that record and offers the number among its options. *)
Lemma numeric_distractor_is_kept :
  forallb is_string
    (spread (own_property (content_of numeric_distractor) "wrongAnswers"))
  = false
  /\ spec_valid_record numeric_distractor = false
  /\ (forall r : rng, exists Q : Question,
        fetchQuestions (Resolved (payload [numeric_distractor])) r level_chosen
        = ({| selectedLevel := VStr "beginner"; questions := [Q];
              currentQuestion := 0; selectedAnswer := VNull; score := 0;
              showResults := false; loading := false; error := VNull |},
           Normal tt)
        /\ question Q = "2 + 2 = ?"
        /\ VNum 5 ∈ options Q).
Proof.
  split; [reflexivity|]. split; [reflexivity|]. intros r.
  destruct (fetchQuestions_try_success (payload [numeric_distractor])
              [numeric_distractor] r)
    as (formatted & r1 & shuffled & r2 & _ & Hb & Ht & Hp);
    [reflexivity|repeat constructor|vm_compute; lia|].
  change (List.filter valid_record [numeric_distractor])
    with [numeric_distractor] in Hb.
  apply Forall2_cons_inv_l in Hb as (Q & rest & HQ & Hrest & ->).
  apply Forall2_nil_inv_l in Hrest as ->.
  apply Permutation_singleton_r in Hp as ->.
  exists Q. rewrite (fetchQuestions_success _ _ _ _ _ Ht).
  split; [reflexivity|].
  destruct HQ as (Hq & _ & Ho & _). split.
  - change (own_property (content_of numeric_distractor) "question")
      with (VStr "2 + 2 = ?") in Hq. by injection Hq as <-.
  - rewrite Ho.
    change (spread (own_property (content_of numeric_distractor) "wrongAnswers"))
      with [VNum 5]. set_solver.
Qed.









(** C9: when the [try] block of a fetch throws, for whatever reason (the
    request is rejected, the payload is missing, no record is valid, ...),
    the questions, the score, the index, the selected answer, the completed
    flag and the level are what they were before the fetch; the state
    differs from the previous one in the error and the loading flag only,
    and loading has ended.  The three named causes make the block throw by
    [fetchQuestions_try_rejected], [fetchQuestions_try_no_payload] and
    [fetchQuestions_try_no_valid]. *)
Theorem failed_fetch_keeps_session (s : State) (o : outcome) (r : rng)
    (e : value) :
  fetchQuestions_try o r = Throw e ->
  questions (fst (fetchQuestions o r s)) = questions s
  /\ score (fst (fetchQuestions o r s)) = score s
  /\ currentQuestion (fst (fetchQuestions o r s)) = currentQuestion s
  /\ selectedAnswer (fst (fetchQuestions o r s)) = selectedAnswer s
  /\ showResults (fst (fetchQuestions o r s)) = showResults s
  /\ selectedLevel (fst (fetchQuestions o r s)) = selectedLevel s
  /\ loading (fst (fetchQuestions o r s)) = false
  /\ fst (fetchQuestions o r s)
     = setLoading false (setError (error (fst (fetchQuestions o r s))) s).
Proof.
  intros H. unfold fetchQuestions, fetchQuestions_settle. rewrite H.
  destruct (Get e "message"); done.
Qed.

Lemma failed_fetch_keeps_session_witness :
  questions (fst (fetchQuestions (Rejected (new_Error "Network Error")) coin
                    finished_session))
  = questions finished_session
  /\ score (fst (fetchQuestions (Rejected (new_Error "Network Error")) coin
                  finished_session))
     = score finished_session.
Proof.
  pose proof (failed_fetch_keeps_session finished_session
                (Rejected (new_Error "Network Error")) coin
                (new_Error "Network Error")) as H.
  split; apply H; reflexivity.
Defined.




(** ** The handlers *)

Lemma at_index_Some {A} (l : list A) (i : Z) :
  0 <= i < Z.of_nat (length l) -> exists x, at_index l i = Some x.
Proof.
  intros H. unfold at_index. replace (i <? 0) with false by lia.
  destruct (lookup_lt_is_Some_2 l (Z.to_nat i)) as [x Hx]; [lia|]. eauto.
Qed.

Lemma strict_equals_string_true a s :
  strict_equals_string a s = true <-> a = VStr s.
Proof.
  destruct a; simpl; try (split; [done|intros [=]]).
  rewrite String.eqb_eq. split; [by intros ->|by intros [= ->]].
Qed.

Lemma truthy_VStr s : truthy (VStr s) = true <-> s <> "".
Proof.
  simpl. rewrite negb_true_iff. destruct (String.eqb_spec s ""); split; done.
Qed.

(** What [handleAnswer] does on a question that exists: with no truthy
    answer stored it stores the option and adds one to the score exactly for
    the option that is the question's answer; with a truthy answer stored
    it changes nothing. *)
Lemma handleAnswer_cases (s : State) (Q : Question) (option : value) :
  at_index (questions s) (currentQuestion s) = Some Q ->
  handleAnswer option s =
  if truthy (selectedAnswer s) then (s, Normal tt)
  else if strict_equals_string option (answer Q)
       then (setScore (score s + 1) (setSelectedAnswer option s), Normal tt)
       else (setSelectedAnswer option s, Normal tt).
Proof.
  intros HQ. unfold handleAnswer. rewrite HQ.
  by destruct (truthy (selectedAnswer s)).
Qed.

Lemma score_never_decreases (s : State) (option : value) :
  score s <= score (fst (handleAnswer option s))
  /\ score (handleNext s) = score s.
Proof.
  split.
  - unfold handleAnswer. destruct (truthy (selectedAnswer s)); simpl; [lia|].
    destruct (at_index _ _); simpl; [|lia].
    destruct (strict_equals_string _ _); simpl; lia.
  - unfold handleNext. by destruct (_ <? _).
Qed.

(** C2, the failing input: in the loaded session whose question has the
    empty string as its answer, the option buttons stay enabled after the
    first selection, since the stored answer is falsy, and pressing the same
    option again adds to the score a second time. *)
Lemma empty_answer_is_counted_twice :
  phase_of empty_answer_session = Some Answering
  /\ score empty_answer_session = 0
  /\ selectedAnswer (fst (click (SelectOption 0) empty_answer_session))
     = VStr ""
  /\ score (fst (click (SelectOption 0) empty_answer_session)) = 1
  /\ phase_of (fst (click (SelectOption 0) empty_answer_session))
     = Some Answering
  /\ score (fst (click (SelectOption 0)
                   (fst (click (SelectOption 0) empty_answer_session)))) = 2
  /\ score (fst (handleAnswer (VStr "")
                   (fst (handleAnswer (VStr "") empty_answer_session)))) = 2.
Proof. repeat split; vm_compute; reflexivity. Qed.

Lemma all_upto_spec (n : nat) (check : Z -> Z -> bool) :
  all_upto n check = true ->
  forall k total,
    1 <= total <= Z.of_nat n -> 0 <= k <= total -> check k total = true.
Proof.
  unfold all_upto. rewrite List.forallb_forall. intros H k total Ht Hk.
  specialize (H (Z.to_nat total)). rewrite List.forallb_forall in H.
  specialize (H ltac:(apply in_seq; lia) (Z.to_nat k) ltac:(apply in_seq; lia)).
  by rewrite !Z2Nat.id in H by lia.
Qed.




(** The double arithmetic shows in the percentage: 29 right out of 200 is
    14.5 percent, which the component displays as 14, because
    [(29 / 200) * 100] evaluates to 14.499999999999998. *)
Remark percentage_is_computed_on_doubles :
  percentage 29 200 = 14%float /\ percentage 1 8 = 13%float.
Proof. split; vm_compute; reflexivity. Qed.

(** ** The state machine *)

(** A user action whose control the rendered view lacks or disables changes
    nothing.  In the phases as the component draws them, this covers every
    action the specification does not list for the phase: the next button
    does nothing while no truthy answer is stored, and the option buttons
    do nothing while one is. *)
Lemma unlisted_actions_are_ignored (s : State) (p : phase) (a : action) :
  phase_of s = Some p -> listed p a = false -> click a s = (s, Normal tt).
Proof.
  unfold phase_of, click, render. intros Hp Hl.
  destruct (negb (truthy (selectedLevel s))).
  { injection Hp as <-. by destruct a. }
  destruct (loading s).
  { injection Hp as <-. by destruct a. }
  destruct (truthy (error s)).
  { injection Hp as <-. destruct (renderable _); [|done]. by destruct a. }
  destruct (Z.of_nat (length (questions s)) =? 0); [done|].
  destruct (showResults s).
  { injection Hp as <-. by destruct a. }
  destruct (at_index (questions s) (currentQuestion s)); [|done].
  destruct (_ && _); [|done].
  destruct (truthy (selectedAnswer s)); injection Hp as <-; by destruct a.
Qed.

(** C7, the failing input: in the loaded session whose question has the
    empty string as its answer, the first press of that option is the one
    answer selection of the question, after which a selection is no longer
    a listed action.  The component still shows the option buttons
    enabled, and a second press of the option changes the state: the score
    goes from 1 to 2. *)
Lemma second_selection_is_not_ignored :
  phase_of empty_answer_session = Some Answering
  /\ listed Answering (SelectOption 0) = true
  /\ selectedAnswer (fst (click (SelectOption 0) empty_answer_session))
     = VStr ""
  /\ score (fst (click (SelectOption 0) empty_answer_session)) = 1
  /\ listed Revealed (SelectOption 0) = false
  /\ (exists Q position total,
        render (fst (click (SelectOption 0) empty_answer_session))
        = Normal (QuestionView Q position total false true))
  /\ score (fst (click (SelectOption 0)
                   (fst (click (SelectOption 0) empty_answer_session)))) = 2
  /\ score (fst (handleAnswer (VStr "")
                   (fst (handleAnswer (VStr "") empty_answer_session)))) = 2.
Proof.
  repeat split; try (vm_compute; reflexivity).
  eexists _, _, _. vm_compute. reflexivity.
Qed.

(** The guard against advancing early is the [disabled] attribute of the
    button alone: [handleNext] itself moves on whether or not an answer was
    selected. *)
Remark handleNext_has_no_guard :
  phase_of two_question_session = Some Answering
  /\ currentQuestion two_question_session = 0
  /\ currentQuestion (handleNext two_question_session) = 1.
Proof. repeat split; vm_compute; reflexivity. Qed.

(** ** The score invariant *)

(** C10, the failing input: from the freshly loaded session whose question
    has the empty string as its answer, two calls of the answer handler with
    that option reach a score of 2 on the first and only question. *)
Lemma score_overtakes_the_index :
  freshly_loaded empty_answer_session
  /\ reachable empty_answer_session
       (fst (handleAnswer (VStr "")
               (fst (handleAnswer (VStr "") empty_answer_session))))
  /\ score (fst (handleAnswer (VStr "")
                   (fst (handleAnswer (VStr "") empty_answer_session)))) = 2
  /\ currentQuestion
       (fst (handleAnswer (VStr "")
               (fst (handleAnswer (VStr "") empty_answer_session)))) + 1 = 1
  /\ Z.of_nat
       (length
          (questions
             (fst (handleAnswer (VStr "")
                     (fst (handleAnswer (VStr "") empty_answer_session))))))
     = 1.
Proof.
  split; [|split].
  - repeat split; done.
  - do 2 apply reachable_answer. apply reachable_start.
  - repeat split; vm_compute; reflexivity.
Qed.

(** When no question of a freshly loaded session has the empty string as
    its answer, every state the answer and advance handlers reach keeps the
    questions and satisfies [0 <= score <= currentQuestion + 1 <= number of
    questions]. *)
Theorem score_bounded_when_answers_not_empty (s0 s : State) :
  freshly_loaded s0 ->
  Forall (fun Q => answer Q <> "") (questions s0) ->
  reachable s0 s ->
  questions s = questions s0
  /\ 0 <= score s <= currentQuestion s + 1
  /\ currentQuestion s + 1 <= Z.of_nat (length (questions s)).
Proof.
  intros (Hne & Hi & Ha & Hs & _) Hans Hr.
  assert (questions s = questions s0
          /\ 0 <= currentQuestion s < Z.of_nat (length (questions s))
          /\ 0 <= score s
             <= currentQuestion s + (if truthy (selectedAnswer s) then 1 else 0))
    as (Hq & Hidx & Hsc).
  { induction Hr as [|s option Hr IH|s Hr IH].
    - rewrite Hi, Hs, Ha. simpl. repeat split; try lia.
      destruct (questions s0); [done|]. simpl. lia.
    - destruct IH as (Hq & Hidx & Hsc).
      destruct (at_index_Some _ _ Hidx) as [Q HQ].
      rewrite (handleAnswer_cases _ _ _ HQ).
      destruct (truthy (selectedAnswer s)) eqn:Hsel.
      { simpl. rewrite Hsel. done. }
      destruct (strict_equals_string option (answer Q)) eqn:He; simpl.
      + apply strict_equals_string_true in He as ->.
        assert (answer Q <> "") as HQne.
        { rewrite Hq in HQ. unfold at_index in HQ.
          destruct (_ <? 0); [done|].
          rewrite Forall_forall in Hans. apply Hans.
          by eapply list_elem_of_lookup_2. }
        apply truthy_VStr in HQne. rewrite HQne. repeat split; try done; lia.
      + repeat split; try done; try lia. destruct (truthy option); lia.
    - destruct IH as (Hq & Hidx & Hsc). unfold handleNext.
      destruct (_ <? _) eqn:Hlt; simpl.
      + repeat split; try done; try lia. destruct (truthy _); lia.
      + done. }
  repeat split; try done; try lia. destruct (truthy _); lia.
Qed.

Lemma score_bounded_when_answers_not_empty_witness :
  0 <= score (handleNext (fst (handleAnswer (VStr "Rome")
                                 two_question_session)))
    <= currentQuestion (handleNext (fst (handleAnswer (VStr "Rome")
                                          two_question_session))) + 1.
Proof.
  apply (score_bounded_when_answers_not_empty two_question_session
           (handleNext (fst (handleAnswer (VStr "Rome") two_question_session)))).
  - repeat split; done.
  - repeat constructor; done.
  - apply reachable_next, reachable_answer, reachable_start.
Defined.

(** ** Further facts about the handlers and the loader *)

(** While no truthy answer is stored, [handleAnswer] stores the option; it
    adds exactly one to the score for the option that is the question's
    answer and leaves the score alone for any other option. *)
Theorem first_selection_scores (s : State) (Q : Question) (option : value) :
  truthy (selectedAnswer s) = false ->
  at_index (questions s) (currentQuestion s) = Some Q ->
  (option = VStr (answer Q) ->
   handleAnswer option s
   = (setScore (score s + 1) (setSelectedAnswer option s), Normal tt))
  /\ (option <> VStr (answer Q) ->
      handleAnswer option s = (setSelectedAnswer option s, Normal tt)).
Proof.
  intros Hsel HQ. rewrite (handleAnswer_cases _ _ _ HQ), Hsel.
  split; intros H.
  - apply strict_equals_string_true in H. by rewrite H.
  - destruct (strict_equals_string option (answer Q)) eqn:He; [|done].
    by apply strict_equals_string_true in He.
Qed.

Lemma first_selection_scores_witness :
  handleAnswer (VStr "Paris") one_question_session
  = (setScore (score one_question_session + 1)
       (setSelectedAnswer (VStr "Paris") one_question_session), Normal tt).
Proof.
  eapply (first_selection_scores one_question_session _ (VStr "Paris"));
    reflexivity.
Defined.

(** Once a truthy answer is stored, that is any value but [null],
    [undefined], [false], a zero, [NaN] and the empty string,
    [handleAnswer] changes nothing, whatever option it is given. *)
Theorem reselection_is_ignored (s : State) (option : value) :
  truthy (selectedAnswer s) = true -> handleAnswer option s = (s, Normal tt).
Proof. intros H. unfold handleAnswer. by rewrite H. Qed.

Lemma reselection_is_ignored_witness :
  handleAnswer (VStr "Rome") revealed_session = (revealed_session, Normal tt).
Proof. apply reselection_is_ignored. reflexivity. Defined.

(** The scenario of the specification: five valid records, three questions
    answered correctly and two incorrectly, the next button pressed after
    each answer.  The session ends completed, with a score of 3 and 60
    percent on the results screen. *)
Example three_right_out_of_five :
  length (questions five_question_session) = 5%nat
  /\ score (play [SelectOption 0; Advance; SelectOption 0; Advance;
                  SelectOption 1; Advance; SelectOption 1; Advance;
                  SelectOption 0; Advance] five_question_session) = 3
  /\ showResults
       (play [SelectOption 0; Advance; SelectOption 0; Advance;
              SelectOption 1; Advance; SelectOption 1; Advance;
              SelectOption 0; Advance] five_question_session) = true
  /\ render
       (play [SelectOption 0; Advance; SelectOption 0; Advance;
              SelectOption 1; Advance; SelectOption 1; Advance;
              SelectOption 0; Advance] five_question_session)
     = Normal (ResultsView 60 3 5).
Proof. repeat split; vm_compute; reflexivity. Qed.

(** An entry of the batch that is [null] is not skipped: reading its
    [content] throws, the whole batch is given up and the engine's message
    becomes the error, although the batch holds a valid record. *)
Remark null_entry_aborts_the_batch :
  count_valid [capital; VNull] = 1%nat
  /\ fetchQuestions (Resolved (payload [capital; VNull])) coin level_chosen
     = (setError (VStr (cannot_read VNull "content"))
          (setLoading false level_chosen),
        Normal tt).
Proof. split; vm_compute; reflexivity. Qed.

(** A request rejected with [undefined] or [null] is the one way an
    exception leaves [fetchQuestions]: the [catch] block throws when it reads
    [err.message], and only the [finally] block still runs. *)
Remark rejection_without_reason_escapes :
  fetchQuestions (Rejected VUndefined) coin level_chosen
  = (setLoading false level_chosen,
     Throw (TypeError (cannot_read VUndefined "message"))).
Proof. vm_compute. reflexivity. Qed.

(** A listed action whose carried value, if any, is truthy leads to one of
    the phases the specification names for it.  It leaves the state as it
    is in two cases only: the component has crashed on rendering, or the
    action is a press of an option button that the question does not have.
    (A falsy level keeps the level selector open, and a falsy option leaves
    the question in [Answering].) *)
Theorem listed_actions_follow_the_machine (s : State) (p : phase) (a : action) :
  phase_of s = Some p ->
  listed p a = true ->
  (forall v, carried a s = Some v -> truthy v = true) ->
  (fst (click a s) = s
   /\ ((exists e, render s = Throw e)
       \/ (exists n, a = SelectOption n /\ carried a s = None)))
  \/ (exists p', phase_of (fst (click a s)) = Some p' /\ p' ∈ targets p a).
Proof.
  unfold phase_of, click, render. intros Hp Hl Hv.
  destruct (truthy (selectedLevel s)) eqn:Hlevel; simpl in *.
  2:{ injection Hp as <-. destruct a; try done. simpl. right.
      exists Loading. split; [|set_solver].
      unfold useEffect_selectedLevel, handleLevelSelect.
      cbn [selectedLevel setSelectedLevel]. rewrite (Hv level eq_refl).
      simpl. by rewrite (Hv level eq_refl). }
  destruct (loading s) eqn:Hload.
  { injection Hp as <-. by destruct a. }
  destruct (truthy (error s)) eqn:Herr.
  { injection Hp as <-. destruct (renderable (error s)); [|left; eauto].
    destruct a; try done; simpl; right.
    - exists Loading. split; [|set_solver]. by rewrite Hlevel.
    - exists AwaitingLevel. split; [done|set_solver]. }
  destruct (Z.of_nat (length (questions s)) =? 0) eqn:Hlen; [done|].
  destruct (showResults s) eqn:Hres.
  { injection Hp as <-. destruct a; try done; simpl; right.
    - exists Loading. split; [|set_solver]. by rewrite Hlevel.
    - exists AwaitingLevel. split; [done|set_solver]. }
  destruct (at_index (questions s) (currentQuestion s)) as [Q|] eqn:HQ;
    [|left; eauto].
  destruct (_ && _); [|left; eauto].
  destruct (truthy (selectedAnswer s)) eqn:Hsel; injection Hp as <-;
    destruct a; try done; simpl in *.
  - right. unfold handleNext.
    destruct (_ <? _); simpl; rewrite Hlevel, Hload, Herr, Hlen; simpl.
    + exists Answering. split; [by rewrite Hres|set_solver].
    + exists Finished. split; [done|set_solver].
  - rewrite HQ in *.
    destruct (options Q !! n) as [option|] eqn:Hn; simpl; [|left; eauto].
    right. exists Revealed. split; [|set_solver].
    rewrite (handleAnswer_cases _ _ _ HQ), Hsel.
    destruct (strict_equals_string option (answer Q)); simpl;
      rewrite Hlevel, Hload, Herr, Hlen, Hres, (Hv option eq_refl); done.
Qed.

Lemma listed_actions_follow_the_machine_witness :
  exists p',
    phase_of (fst (click (SelectOption 1) one_question_session)) = Some p'
    /\ p' ∈ targets Answering (SelectOption 1).
Proof.
  destruct (listed_actions_follow_the_machine one_question_session Answering
              (SelectOption 1) eq_refl eq_refl) as [[H _]|H].
  - intros v Hv. vm_compute in Hv. injection Hv as <-. reflexivity.
  - vm_compute in H. discriminate.
  - exact H.
Defined.

(** * More of the component *)

(** ** The callback and the ways a fetch can end *)

(** What the callback does with a record depends on the record alone: it
    builds a question exactly for the valid records, returns [null] for
    every other record that is not [null] or [undefined], without drawing a
    random number, and throws on [null] and [undefined]. *)
Theorem callback_outcome (q : value) (r : rng) :
  match formatQuestion q r with
  | Normal (Some Q, _) => valid_record q = true /\ built_from q Q
  | Normal (None, r') => nullish q = false /\ valid_record q = false /\ r' = r
  | Throw e => nullish q = true /\ e = TypeError (cannot_read q "content")
  end.
Proof.
  destruct (nullish q) eqn:Hq.
  { by rewrite formatQuestion_nullish. }
  destruct (valid_record q) eqn:Hv.
  - destruct (formatQuestion_valid q r Hv) as (Q & r' & -> & Hb). done.
  - by rewrite formatQuestion_invalid.
Qed.

Lemma formatQuestion_Throw_content q r e :
  formatQuestion q r = Throw e ->
  nullish q = true /\ e = TypeError (cannot_read q "content").
Proof.
  intros H. destruct (nullish q) eqn:Hq.
  - rewrite formatQuestion_nullish in H by done. by injection H as <-.
  - destruct (valid_record q) eqn:Hv.
    + destruct (formatQuestion_valid q r Hv) as (? & ? & ? & _). congruence.
    + rewrite formatQuestion_invalid in H; done.
Qed.

Lemma Array_map_formatQuestion_Throw_content batch r e :
  Array_map formatQuestion batch r = Throw e ->
  exists q,
    q ∈ batch /\ nullish q = true /\ e = TypeError (cannot_read q "content").
Proof.
  revert r. induction batch as [|q batch IH]; intros r H; simpl in H; [done|].
  unfold bind at 1 in H.
  destruct (formatQuestion q r) as [[y r1]|e'] eqn:Hy.
  - unfold bind at 1 in H.
    destruct (Array_map formatQuestion batch r1) as [[ys r2]|e''] eqn:Hys;
      [done|].
    injection H as <-. destruct (IH _ Hys) as (q' & Hin & Hq' & He').
    exists q'. split; [set_solver|]. by split.
  - injection H as <-. apply formatQuestion_Throw_content in Hy as [Hq ->].
    exists q. split; [set_solver|done].
Qed.

Lemma or_else_truthy a b : truthy b = true -> truthy (or_else a b) = true.
Proof. intros Hb. unfold or_else. by destruct (truthy a) eqn:Ha. Qed.

Lemma fetchQuestions_caught o r s e :
  fetchQuestions_try o r = Throw e -> nullish e = false ->
  fetchQuestions o r s =
  (setError
     (or_else (own_property e "message")
        (VStr "Failed to load questions. Please try again."))
     (setLoading false s),
   Normal tt).
Proof.
  intros H He. unfold fetchQuestions, fetchQuestions_settle, Get.
  by rewrite H, He.
Qed.

Lemma fetchQuestions_try_Normal_nonempty o r shuffled r' :
  fetchQuestions_try o r = Normal (shuffled, r') -> shuffled <> [].
Proof.
  destruct o as [response|reason]; [|done]. intros H.
  apply fetchQuestions_try_inv in H as (? & formatted & ? & _ & _ & _ & Hne & Hp).
  intros ->. apply Permutation_nil_l in Hp. done.
Qed.

(** With a level selected, a fetch ends in one of three ways.  It succeeds:
    the quiz is in [Answering] on a non-empty question list.  It fails and
    the failure is caught: the component is in [Error], with a truthy
    message, and the session fields are untouched.  Or the request was
    rejected with [null] or [undefined]: the exception leaves the function,
    no message is set and only loading has ended. *)
Theorem fetch_ends_in_three_ways (o : outcome) (r : rng) (s : State) :
  truthy (selectedLevel s) = true ->
  (exists shuffled r',
      fetchQuestions_try o r = Normal (shuffled, r')
      /\ shuffled <> []
      /\ snd (fetchQuestions o r s) = Normal tt
      /\ questions (fst (fetchQuestions o r s)) = shuffled
      /\ phase_of (fst (fetchQuestions o r s)) = Some Answering)
  \/ (exists e,
        fetchQuestions_try o r = Throw e
        /\ nullish e = false
        /\ snd (fetchQuestions o r s) = Normal tt
        /\ truthy (error (fst (fetchQuestions o r s))) = true
        /\ phase_of (fst (fetchQuestions o r s)) = Some Error
        /\ fst (fetchQuestions o r s)
           = setError (error (fst (fetchQuestions o r s))) (setLoading false s))
  \/ (exists reason,
        o = Rejected reason
        /\ nullish reason = true
        /\ snd (fetchQuestions o r s)
           = Throw (TypeError (cannot_read reason "message"))
        /\ fst (fetchQuestions o r s) = setError VNull (setLoading false s)).
Proof.
  intros Hl.
  destruct (fetchQuestions_try o r) as [[shuffled r']|e] eqn:Ht.
  - left. exists shuffled, r'.
    pose proof (fetchQuestions_try_Normal_nonempty _ _ _ _ Ht) as Hne.
    rewrite (fetchQuestions_success _ _ _ _ _ Ht).
    repeat split; try done. unfold phase_of. simpl. rewrite Hl. simpl.
    destruct shuffled; done.
  - destruct (nullish e) eqn:He.
    + right. right. destruct o as [response|reason].
      { apply fetchQuestions_try_Throw in Ht as [m ->]. done. }
      injection Ht as <-. exists reason. split; [done|]. split; [done|].
      unfold fetchQuestions, fetchQuestions_settle, Get. simpl.
      by rewrite He.
    + right. left. exists e. rewrite (fetchQuestions_caught _ _ _ _ Ht He).
      simpl. repeat split; try done.
      * by apply or_else_truthy.
      * unfold phase_of. simpl. rewrite Hl. simpl.
        by rewrite or_else_truthy.
Qed.

Lemma fetch_ends_in_three_ways_witness :
  phase_of (fst (fetchQuestions (Resolved (payload [capital])) coin
                   level_chosen)) = Some Answering.
Proof.
  destruct (fetch_ends_in_three_ways (Resolved (payload [capital])) coin
              level_chosen eq_refl)
    as [(shuffled & r' & _ & _ & _ & _ & H)
       | [(e & Ht & _) | (reason & Ho & _)]].
  - exact H.
  - vm_compute in Ht. discriminate.
  - discriminate.
Defined.

(** An exception leaves [fetchQuestions] exactly when the request was
    rejected with [null] or [undefined]: every other failure is caught. *)
Theorem exception_leaves_only_without_reason (o : outcome) (r : rng)
    (s : State) :
  (exists e, snd (fetchQuestions o r s) = Throw e)
  <-> (exists reason, o = Rejected reason /\ nullish reason = true).
Proof.
  unfold fetchQuestions, fetchQuestions_settle. split.
  - intros [e0 H].
    destruct (fetchQuestions_try o r) as [[shuffled r']|e] eqn:Ht; [done|].
    unfold Get in H. destruct (nullish e) eqn:He; [|done].
    destruct o as [response|reason].
    + apply fetchQuestions_try_Throw in Ht as [m ->]. done.
    + injection Ht as <-. eauto.
  - intros (reason & -> & Hn). simpl. unfold Get. rewrite Hn. eauto.
Qed.

(** A batch with an entry that is [null] or [undefined] is given up as a
    whole, valid records or not: the message of the [TypeError] that
    reading [content] of such an entry throws becomes the error, which is
    therefore not the "No valid questions" message, and the session fields
    stay. *)
Theorem null_entry_fails_the_batch (s : State) (response : value)
    (batch : list value) (r : rng) :
  own_property response "data" = VArr batch ->
  Exists (fun q => nullish q = true) batch ->
  exists q text,
    q ∈ batch
    /\ Get q "content" = Throw (TypeError text)
    /\ fetchQuestions (Resolved response) r s
       = (setError (VStr text) (setLoading false s), Normal tt)
    /\ text <> "No valid questions available for this level."
    /\ text <> "".
Proof.
  intros Hd Hn.
  destruct (Array_map_formatQuestion_throws batch r Hn) as [e He].
  destruct (Array_map_formatQuestion_Throw_content _ _ _ He)
    as (q & Hin & Hq & ->).
  exists q, (cannot_read q "content"). split; [done|]. split.
  { unfold Get. by rewrite Hq. }
  assert (fetchQuestions_try (Resolved response) r
          = Throw (TypeError (cannot_read q "content"))) as Ht.
  { rewrite (fetchQuestions_try_batch _ _ _ Hd).
    unfold formattedQuestions, data_map, bind. by rewrite He. }
  rewrite (fetchQuestions_Error _ _ _ _ Ht).
  destruct q; try done; repeat split; done.
Qed.

Lemma null_entry_fails_the_batch_witness :
  exists q text,
    q ∈ [capital; VNull; numeric_distractor]
    /\ Get q "content" = Throw (TypeError text)
    /\ fetchQuestions
         (Resolved (payload [capital; VNull; numeric_distractor])) coin
         one_question_session
       = (setError (VStr text) (setLoading false one_question_session),
          Normal tt)
    /\ text <> "No valid questions available for this level."
    /\ text <> "".
Proof.
  apply (null_entry_fails_the_batch one_question_session
           (payload [capital; VNull; numeric_distractor])
           [capital; VNull; numeric_distractor] coin).
  - reflexivity.
  - apply Exists_cons_tl, Exists_cons_hd. reflexivity.
Defined.

(** A response whose [data] is not an array never reaches the records: a
    falsy response or a falsy [data] is reported as "Failed to fetch
    questions", and a truthy [data] that is no array fails on its missing
    [map] method. *)
Theorem payload_without_array_is_reported (s : State) (response : value)
    (r : rng) :
  Array_isArray (own_property response "data") = false ->
  fetchQuestions (Resolved response) r s
  = (setError
       (VStr (if truthy response && truthy (own_property response "data")
              then "response.data.map is not a function"
              else "Failed to fetch questions"))
       (setLoading false s),
     Normal tt).
Proof.
  intros Ha.
  destruct (truthy response && truthy (own_property response "data")) eqn:Ht.
  - apply andb_prop in Ht as [Hr Hd].
    assert (fetchQuestions_try (Resolved response) r
            = Throw (TypeError "response.data.map is not a function")) as H.
    { unfold fetchQuestions_try. unfold bind at 1. simpl.
      rewrite Hr. simpl. unfold bind at 1. unfold bind at 1.
      rewrite (lift_Get_ok _ _ _ (truthy_not_nullish _ Hr)), Hd. simpl.
      unfold formattedQuestions, data_map, bind.
      by destruct (own_property response "data"). }
    by rewrite (fetchQuestions_Error _ _ _ _ H).
  - rewrite (fetchQuestions_Error _ _ _ _
               (fetchQuestions_try_no_payload response r
                  ltac:(apply andb_false_iff in Ht; tauto))).
    done.
Qed.

Lemma payload_without_array_is_reported_witness :
  fetchQuestions (Resolved (VObj {[ "data" := VStr "maintenance" ]})) coin
    level_chosen
  = (setError (VStr "response.data.map is not a function")
       (setLoading false level_chosen), Normal tt).
Proof.
  exact (payload_without_array_is_reported level_chosen
           (VObj {[ "data" := VStr "maintenance" ]}) coin eq_refl).
Defined.

(** A rejected request shows the [message] of the rejection reason when that
    is truthy, and "Failed to load questions. Please try again." otherwise;
    either way the stored error is truthy. *)
Theorem rejection_message_is_shown (s : State) (reason : value) (r : rng) :
  nullish reason = false ->
  fetchQuestions (Rejected reason) r s
  = (setError
       (if truthy (own_property reason "message")
        then own_property reason "message"
        else VStr "Failed to load questions. Please try again.")
       (setLoading false s),
     Normal tt)
  /\ truthy (error (fst (fetchQuestions (Rejected reason) r s))) = true.
Proof.
  intros Hn.
  rewrite (fetchQuestions_caught _ _ _ _ (fetchQuestions_try_rejected reason r) Hn).
  split; [done|]. simpl. by apply or_else_truthy.
Qed.

Lemma rejection_message_is_shown_witness :
  fetchQuestions (Rejected (VStr "timeout")) coin level_chosen
  = (setError (VStr "Failed to load questions. Please try again.")
       (setLoading false level_chosen), Normal tt).
Proof.
  exact (proj1 (rejection_message_is_shown level_chosen (VStr "timeout") coin
                  eq_refl)).
Defined.

(** ** How fetches compose, and what a successful one installs *)

(** A fetch that failed leaves no trace once the next fetch has ended,
    whatever its end: the error and the loading flag it wrote are written
    again, and it wrote nothing else. *)
Theorem failed_fetch_leaves_no_trace (o1 o2 : outcome) (r1 r2 : rng)
    (s : State) (e : value) :
  fetchQuestions_try o1 r1 = Throw e ->
  fetchQuestions o2 r2 (fst (fetchQuestions o1 r1 s)) = fetchQuestions o2 r2 s.
Proof.
  intros H1. unfold fetchQuestions at 1 3.
  replace (fetchQuestions_begin (fst (fetchQuestions o1 r1 s)))
    with (fetchQuestions_begin s); [done|].
  unfold fetchQuestions, fetchQuestions_settle. rewrite H1.
  by destruct (Get e "message").
Qed.

Lemma failed_fetch_leaves_no_trace_witness :
  fetchQuestions (Resolved (payload [capital])) coin
    (fst (fetchQuestions (Rejected VNull) coin finished_session))
  = fetchQuestions (Resolved (payload [capital])) coin finished_session.
Proof.
  apply (failed_fetch_leaves_no_trace (Rejected VNull)
           (Resolved (payload [capital])) coin coin finished_session VNull).
  reflexivity.
Defined.

(** The state after a successful fetch depends on the state before it
    through the selected level only: nothing of an earlier session, score,
    index, selection, completed flag or error, survives it. *)
Theorem successful_fetch_forgets_the_past (o : outcome) (r r' : rng)
    (s1 s2 : State) (shuffled : list Question) :
  fetchQuestions_try o r = Normal (shuffled, r') ->
  selectedLevel s1 = selectedLevel s2 ->
  fetchQuestions o r s1 = fetchQuestions o r s2.
Proof.
  intros H Hl. rewrite !(fetchQuestions_success _ _ _ _ _ H). by rewrite Hl.
Qed.

Lemma successful_fetch_forgets_the_past_witness :
  fetchQuestions (Resolved (payload [capital])) coin finished_session
  = fetchQuestions (Resolved (payload [capital])) coin level_chosen.
Proof.
  eapply (successful_fetch_forgets_the_past (Resolved (payload [capital]))
            coin).
  - vm_compute. reflexivity.
  - reflexivity.
Defined.

Lemma built_from_valid_records batch formatted :
  Forall2 built_from (List.filter valid_record batch) formatted ->
  Forall (fun Q => exists q, valid_record q = true /\ built_from q Q) formatted.
Proof.
  revert formatted. induction batch as [|q batch IH]; intros formatted H;
    simpl in H.
  - apply Forall2_nil_inv_l in H as ->. constructor.
  - destruct (valid_record q) eqn:Hv; [|by apply IH].
    apply Forall2_cons_inv_l in H as (Q & rest & HQ & Hrest & ->).
    constructor; [by exists q|by apply IH].
Qed.

(** Every question a fetch installs has at least two options, its answer
    among them, an explanation that is neither [null] nor [undefined] (the
    empty string stands in for a missing one) and the same value as
    feedback. *)
Theorem loaded_questions_are_well_formed (o : outcome) (r r' : rng)
    (s : State) (shuffled : list Question) :
  fetchQuestions_try o r = Normal (shuffled, r') ->
  Forall
    (fun Q =>
       (2 <= length (options Q))%nat
       /\ VStr (answer Q) ∈ options Q
       /\ nullish (explanation Q) = false
       /\ feedback Q = explanation Q)
    (questions (fst (fetchQuestions o r s))).
Proof.
  intros H. rewrite (fetchQuestions_success _ _ _ _ _ H). simpl.
  destruct o as [response|reason]; [|done].
  apply fetchQuestions_try_inv in H
    as (batch & formatted & r1 & _ & _ & Hb & _ & Hp).
  rewrite Hp. clear Hp. apply built_from_valid_records in Hb.
  eapply Forall_impl; [exact Hb|]. intros Q (q & Hv & HQ). simpl.
  pose proof (built_from_answer_in_options _ _ HQ) as Hin.
  destruct HQ as (_ & _ & Hp & _ & He & Hf).
  repeat split; try done.
  - rewrite Hp, length_app. simpl.
    unfold valid_record in Hv. repeat (apply andb_prop in Hv as [Hv ?]).
    destruct (own_property (content_of q) "wrongAnswers"); try done.
    simpl in *. lia.
  - rewrite He. unfold or_else.
    destruct (truthy _) eqn:Ht; [by apply truthy_not_nullish|done].
Qed.

Lemma loaded_questions_are_well_formed_witness :
  Forall
    (fun Q =>
       (2 <= length (options Q))%nat
       /\ VStr (answer Q) ∈ options Q
       /\ nullish (explanation Q) = false
       /\ feedback Q = explanation Q)
    (questions
       (fst (fetchQuestions (Resolved (payload [capital; numeric_distractor]))
               coin level_chosen))).
Proof.
  eapply (loaded_questions_are_well_formed
            (Resolved (payload [capital; numeric_distractor])) coin).
  vm_compute. reflexivity.
Defined.

(** After a successful fetch with a level selected the session is a
    freshly loaded one, and the component shows the first question of the
    installed list as question 1, with the option buttons enabled and the
    next button disabled, unless one of the options of that question is an
    object, which React refuses to render: the component then crashes. *)
Theorem successful_fetch_starts_the_quiz (o : outcome) (r r' : rng)
    (s : State) (shuffled : list Question) :
  truthy (selectedLevel s) = true ->
  fetchQuestions_try o r = Normal (shuffled, r') ->
  freshly_loaded (fst (fetchQuestions o r s))
  /\ exists Q rest,
       shuffled = Q :: rest
       /\ render (fst (fetchQuestions o r s))
          = if forallb renderable (options Q)
            then Normal (QuestionView Q 1 (Z.of_nat (length shuffled))
                           false true)
            else Throw invalid_child.
Proof.
  intros Hl H. pose proof (fetchQuestions_try_Normal_nonempty _ _ _ _ H) as Hne.
  rewrite (fetchQuestions_success _ _ _ _ _ H). split; [done|].
  destruct shuffled as [|Q rest]; [done|]. exists Q, rest. split; [done|].
  unfold render. simpl. rewrite Hl. simpl.
  by destruct (forallb renderable (options Q)).
Qed.

Lemma successful_fetch_starts_the_quiz_witness :
  freshly_loaded
    (fst (fetchQuestions (Resolved (payload [capital; empty_answer])) coin
            level_chosen)).
Proof.
  eapply (successful_fetch_starts_the_quiz
            (Resolved (payload [capital; empty_answer])) coin).
  - reflexivity.
  - vm_compute. reflexivity.
Defined.

(** ** Sessions under the handlers *)

Lemma reachable_index_in_range (s0 s : State) :
  freshly_loaded s0 -> reachable s0 s ->
  questions s = questions s0
  /\ 0 <= currentQuestion s < Z.of_nat (length (questions s)).
Proof.
  intros (Hne & Hi & _) Hr. induction Hr as [|s option Hr IH|s Hr IH].
  - split; [done|]. rewrite Hi. destruct (questions s0); [done|]. simpl. lia.
  - destruct IH as [Hq Hidx]. unfold handleAnswer.
    destruct (truthy (selectedAnswer s)); simpl; [done|].
    destruct (at_index _ _); simpl; [|done].
    by destruct (strict_equals_string _ _).
  - destruct IH as [Hq Hidx]. unfold handleNext.
    destruct (_ <? _) eqn:Hlt; simpl; [|done]. split; [done|lia].
Qed.

(** Under the answer and advance handlers a session that started freshly
    loaded stays on a question of its unchanged question list, so the
    answer handler never throws and rendering never fails on a missing
    question.  Rendering fails in one way only, when React is given an
    object to show; it returns a view whenever the error, the options and
    the explanations of the session hold no object. *)
Theorem reachable_sessions_stay_on_a_question (s0 s : State) :
  freshly_loaded s0 ->
  reachable s0 s ->
  questions s = questions s0
  /\ (exists Q, at_index (questions s) (currentQuestion s) = Some Q)
  /\ (forall option, snd (handleAnswer option s) = Normal tt)
  /\ (forall e, render s = Throw e -> e = invalid_child)
  /\ (renderable (error s0) = true ->
      Forall
        (fun Q =>
           forallb renderable (options Q) = true
           /\ renderable (explanation Q) = true)
        (questions s0) ->
      exists view, render s = Normal view).
Proof.
  intros Hf Hr. destruct (reachable_index_in_range _ _ Hf Hr) as [Hq Hidx].
  destruct (at_index_Some _ _ Hidx) as [Q HQ].
  split; [done|]. split; [by exists Q|]. split; [|split].
  - intros option. rewrite (handleAnswer_cases _ _ _ HQ).
    destruct (truthy _); [done|]. by destruct (strict_equals_string _ _).
  - intros e. unfold render. rewrite HQ.
    repeat (match goal with |- context [if ?b then _ else _] => destruct b end);
      try done; by intros [= <-].
  - intros He Hall.
    assert (error s = error s0) as Herr.
    { clear -Hr. induction Hr as [|s option Hr IH|s Hr IH]; [done| |].
      - unfold handleAnswer. destruct (truthy _); simpl; [done|].
        destruct (at_index _ _); simpl; [|done].
        by destruct (strict_equals_string _ _).
      - unfold handleNext. by destruct (_ <? _). }
    assert (forallb renderable (options Q) = true
            /\ renderable (explanation Q) = true) as [Ho Hx].
    { rewrite Forall_forall in Hall. apply Hall. rewrite <- Hq.
      unfold at_index in HQ. destruct (_ <? 0); [done|].
      by eapply list_elem_of_lookup_2. }
    unfold render. rewrite HQ, Herr, He, Ho, Hx, orb_true_r. simpl.
    repeat (match goal with |- context [if ?b then _ else _] => destruct b end);
      eauto.
Qed.

Lemma reachable_sessions_stay_on_a_question_witness :
  exists view,
    render (handleNext (handleNext (fst (handleAnswer (VNum 5)
                                           two_question_session))))
    = Normal view.
Proof.
  eapply (reachable_sessions_stay_on_a_question two_question_session
            (handleNext (handleNext (fst (handleAnswer (VNum 5)
                                            two_question_session))))).
  - repeat split; done.
  - do 2 apply reachable_next. apply reachable_answer, reachable_start.
  - reflexivity.
  - repeat constructor.
Defined.

(** The two handlers only move a session forward, from any state: the
    index and the score never go down, a completed session stays completed,
    and questions, level, loading flag and error are never touched. *)
Theorem handlers_only_move_forward (s0 s : State) :
  reachable s0 s ->
  currentQuestion s0 <= currentQuestion s
  /\ score s0 <= score s
  /\ (showResults s0 = true -> showResults s = true)
  /\ questions s = questions s0
  /\ selectedLevel s = selectedLevel s0
  /\ loading s = loading s0
  /\ error s = error s0.
Proof.
  intros Hr. induction Hr as [|s option Hr IH|s Hr IH].
  - repeat split; try done; lia.
  - destruct IH as (Hi & Hs & Hd & Hq & Hl & Hlo & He). unfold handleAnswer.
    destruct (truthy (selectedAnswer s)); simpl; [done|].
    destruct (at_index _ _); simpl; [|done].
    destruct (strict_equals_string _ _); simpl; repeat split; try done; lia.
  - destruct IH as (Hi & Hs & Hd & Hq & Hl & Hlo & He). unfold handleNext.
    destruct (_ <? _); simpl; repeat split; try done; lia.
Qed.

Lemma handlers_only_move_forward_witness :
  score finished_session
  <= score (fst (handleAnswer (VStr "Rome") (handleNext finished_session))).
Proof.
  apply (handlers_only_move_forward finished_session
           (fst (handleAnswer (VStr "Rome") (handleNext finished_session)))).
  apply reachable_answer, reachable_next, reachable_start.
Defined.

(** ** A whole quiz *)





(** ** The results percentage and the progress bar *)

(** For a quiz of at most 39 questions the percentage on the results
    screen, computed on doubles, is the exact percentage rounded to the
    nearest integer, ties going up, and lies between 0 and 100.  (With 40
    questions it is not: 23 right answers, 57.5 percent, are shown as 57.) *)
Theorem percentage_is_exact_for_small_quizzes (k total : Z) :
  1 <= total <= 39 ->
  0 <= k <= total ->
  percentage k total = of_Z (exact_percentage k total)
  /\ 0 <= exact_percentage k total <= 100.
Proof.
  intros Ht Hk. split.
  - apply FloatAxioms.Leibniz.eqb_spec.
    apply (all_upto_spec 39 percentage_is_exact); [|lia|lia].
    vm_compute. reflexivity.
  - unfold exact_percentage. split.
    + apply Z.div_pos; lia.
    + assert ((200 * k + total) / (2 * total) < 101)
        by (apply Z.div_lt_upper_bound; lia).
      lia.
Qed.

Lemma percentage_is_exact_for_small_quizzes_witness :
  percentage 2 3 = of_Z (exact_percentage 2 3)
  /\ 0 <= exact_percentage 2 3 <= 100.
Proof. apply (percentage_is_exact_for_small_quizzes 2 3); lia. Defined.

Remark percentage_of_23_out_of_40 :
  percentage 23 40 = 57%float /\ exact_percentage 23 40 = 58.
Proof. split; vm_compute; reflexivity. Qed.

(** While a question of a quiz of at most 100 questions is on screen, the
    progress bar is empty on the first question, never full, and pressing
    next on a question that is not the last makes it strictly wider. *)
Theorem progress_bar_is_sound (s : State) :
  Z.of_nat (length (questions s)) <= 100 ->
  0 <= currentQuestion s < Z.of_nat (length (questions s)) ->
  (0 <=? progress_width s)%float = true
  /\ (progress_width s <? 100)%float = true
  /\ (currentQuestion s = 0 -> progress_width s = 0%float)
  /\ (currentQuestion s < Z.of_nat (length (questions s)) - 1 ->
      (progress_width s <? progress_width (handleNext s))%float = true).
Proof.
  intros Hn Hi.
  assert (all_upto 100 progress_is_sound = true) as Hall
    by (vm_compute; reflexivity).
  pose proof (all_upto_spec 100 progress_is_sound Hall) as H.
  unfold progress_width.
  pose proof (H (currentQuestion s) (Z.of_nat (length (questions s)))
                ltac:(lia) ltac:(lia)) as H0.
  unfold progress_is_sound in H0. replace (_ <? _) with true in H0 by lia.
  apply andb_prop in H0 as [H0 H2]. apply andb_prop in H0 as [H0 H1].
  split; [done|]. split; [done|]. split.
  - intros Hz. rewrite Hz in *. simpl in H2.
    by apply FloatAxioms.Leibniz.eqb_spec in H2.
  - intros Hlt. unfold handleNext. replace (_ <? _) with true by lia. simpl.
    pose proof (H (currentQuestion s + 1) (Z.of_nat (length (questions s)))
                  ltac:(lia) ltac:(lia)) as H3.
    unfold progress_is_sound in H3. replace (_ <? _) with true in H3 by lia.
    apply andb_prop in H3 as [_ H3].
    replace (currentQuestion s + 1 =? 0) with false in H3 by lia.
    by replace (currentQuestion s + 1 - 1) with (currentQuestion s) in H3 by lia.
Qed.

Lemma progress_bar_is_sound_witness :
  (progress_width two_question_session
   <? progress_width (handleNext two_question_session))%float = true.
Proof.
  apply (progress_bar_is_sound two_question_session); vm_compute; done.
Defined.

(** The caption of the next button tells what the button does: it reads
    "Show Results" exactly when [handleNext] completes the session, and
    "Next Question" exactly when [handleNext] moves to the next question
    and clears the selection. *)
Theorem next_label_tells_what_next_does (s : State) :
  showResults s = false ->
  (next_label s = "Show Results" <-> showResults (handleNext s) = true)
  /\ (next_label s = "Next Question"
      <-> currentQuestion (handleNext s) = currentQuestion s + 1)
  /\ (next_label s = "Next Question" -> selectedAnswer (handleNext s) = VNull).
Proof.
  intros Hs. unfold next_label, handleNext.
  destruct (_ <? _); simpl; rewrite ?Hs; repeat split; try done; try lia.
Qed.

Lemma next_label_tells_what_next_does_witness :
  next_label revealed_session = "Show Results"
  <-> showResults (handleNext revealed_session) = true.
Proof.
  apply (next_label_tells_what_next_does revealed_session). reflexivity.
Defined.

(** ** What the question screen reveals *)

Lemma strict_equals_VStr option a :
  strict_equals option (VStr a) = Some (strict_equals_string option a).
Proof. by destruct option. Qed.

Lemma strict_equals_primitive option selected :
  primitive selected = true ->
  exists is_selected, strict_equals option selected = Some is_selected.
Proof. destruct option, selected; simpl; try done; eauto. Qed.

Lemma strict_equals_refl selected :
  truthy selected = true -> primitive selected = true ->
  strict_equals selected selected = Some true.
Proof.
  destruct selected as [| |b|x|t| |]; simpl; try done.
  - by intros ->.
  - unfold PrimFloat.is_nan. intros H _. f_equal.
    apply negb_true_iff, orb_false_iff in H as [_ H].
    by apply negb_false_iff in H.
  - intros _ _. by rewrite String.eqb_refl.
Qed.

(** Once a truthy answer that is not an object is selected, every option
    button is disabled and none carries both icons; the button of the
    question's answer carries the check mark on green; after a correct
    selection no button carries the cross, and after a wrong one the button
    of the selected option carries the cross on red. *)
Theorem correctness_is_revealed (s : State) (Q : Question) :
  truthy (selectedAnswer s) = true ->
  primitive (selectedAnswer s) = true ->
  VStr (answer Q) ∈ options Q ->
  selectedAnswer s ∈ options Q ->
  Forall
    (fun button =>
       exists b,
         button = Some b
         /\ disabled b = true
         /\ (check_slot b = Value (VBool false)
             \/ cross_slot b = Value (VBool false)))
    (option_buttons s Q)
  /\ (exists b,
        Some b ∈ option_buttons s Q
        /\ caption b = VStr (answer Q)
        /\ check_slot b = Element "CheckCircle"
        /\ className b = "bg-green-200 border-green-500")
  /\ (selectedAnswer s = VStr (answer Q) ->
      Forall
        (fun button =>
           forall b, button = Some b -> cross_slot b = Value (VBool false))
        (option_buttons s Q))
  /\ (selectedAnswer s <> VStr (answer Q) ->
      exists b,
        Some b ∈ option_buttons s Q
        /\ caption b = selectedAnswer s
        /\ cross_slot b = Element "XCircle"
        /\ className b = "bg-red-200 border-red-500").
Proof.
  intros Ht Hp Hans Hsel. unfold option_buttons. split; [|split; [|split]].
  - apply Forall_fmap, Forall_forall. intros option _. simpl.
    unfold option_button. rewrite Ht.
    destruct (strict_equals_primitive option _ Hp) as [is_selected ->].
    eexists. split; [reflexivity|]. simpl. split; [done|].
    destruct (strict_equals_string option (answer Q)), is_selected; auto.
  - destruct (strict_equals_primitive (VStr (answer Q)) _ Hp)
      as [is_selected His].
    eexists. split.
    + apply list_elem_of_fmap. exists (VStr (answer Q)). split; [|done].
      unfold option_button. rewrite Ht, His. reflexivity.
    + simpl. by rewrite String.eqb_refl.
  - intros Heq. apply Forall_fmap, Forall_forall. intros option _ b. simpl.
    unfold option_button. rewrite Ht, Heq, strict_equals_VStr.
    intros [= <-]. simpl. by destruct (strict_equals_string option (answer Q)).
  - intros Hne. eexists. split.
    + apply list_elem_of_fmap. exists (selectedAnswer s). split; [|done].
      unfold option_button. rewrite Ht, (strict_equals_refl _ Ht Hp).
      reflexivity.
    + simpl.
      destruct (strict_equals_string (selectedAnswer s) (answer Q)) eqn:He;
        [|done].
      by apply strict_equals_string_true in He.
Qed.

Lemma correctness_is_revealed_witness :
  exists b,
    Some b ∈ option_buttons
               (fst (handleAnswer (VStr "Rome") one_question_session))
               {| id := VUndefined; question := "Capital of France?";
                  options := [VStr "Oslo"; VStr "Paris"; VStr "Rome"];
                  answer := "Paris"; explanation := VStr "";
                  feedback := VStr "" |}
    /\ caption b = VStr "Rome"
    /\ cross_slot b = Element "XCircle"
    /\ className b = "bg-red-200 border-red-500".
Proof.
  apply (correctness_is_revealed
           (fst (handleAnswer (VStr "Rome") one_question_session))
           {| id := VUndefined; question := "Capital of France?";
              options := [VStr "Oslo"; VStr "Paris"; VStr "Rome"];
              answer := "Paris"; explanation := VStr "";
              feedback := VStr "" |}).
  - reflexivity.
  - reflexivity.
  - set_solver.
  - vm_compute. set_solver.
  - vm_compute. discriminate.
Defined.

(** The colour of the explanation box agrees with the scoring: after a
    first selection of a truthy option the box is shown with the question's
    explanation, green exactly when the selection added one to the score
    and red exactly when it left the score alone. *)
Theorem feedback_agrees_with_score (s : State) (Q : Question) (option : value) :
  truthy (selectedAnswer s) = false ->
  at_index (questions s) (currentQuestion s) = Some Q ->
  truthy option = true ->
  (option = VStr (answer Q)
   /\ score (fst (handleAnswer option s)) = score s + 1
   /\ explanation_box (fst (handleAnswer option s)) Q
      = Box "bg-green-100 text-green-500" (explanation Q))
  \/ (option <> VStr (answer Q)
      /\ score (fst (handleAnswer option s)) = score s
      /\ explanation_box (fst (handleAnswer option s)) Q
         = Box "bg-red-100 text-red-500" (explanation Q)).
Proof.
  intros Hsel HQ Ht. rewrite (handleAnswer_cases _ _ _ HQ), Hsel.
  unfold explanation_box.
  destruct (strict_equals_string option (answer Q)) eqn:He; simpl;
    rewrite Ht, He.
  - left. by apply strict_equals_string_true in He.
  - right. split; [|done]. intros Heq.
    apply strict_equals_string_true in Heq. congruence.
Qed.

Lemma feedback_agrees_with_score_witness :
  explanation_box (fst (handleAnswer (VStr "Rome") one_question_session))
    {| id := VUndefined; question := "Capital of France?";
       options := [VStr "Oslo"; VStr "Paris"; VStr "Rome"];
       answer := "Paris"; explanation := VStr ""; feedback := VStr "" |}
  = Box "bg-red-100 text-red-500" (VStr "").
Proof.
  destruct (feedback_agrees_with_score one_question_session
              {| id := VUndefined; question := "Capital of France?";
                 options := [VStr "Oslo"; VStr "Paris"; VStr "Rome"];
                 answer := "Paris"; explanation := VStr "";
                 feedback := VStr "" |}
              (VStr "Rome") eq_refl eq_refl eq_refl)
    as [(He & _) | (_ & _ & H)].
  - discriminate.
  - exact H.
Defined.

(** ** The component over time *)




(** While the stored answer is falsy, as it is after a load and after every
    move to the next question, all option buttons are enabled and plain,
    their icon slots and the explanation slot hold the stored value itself,
    and that value is rendered as nothing unless it is a number: a selected
    [0] or [NaN] is printed as text in every slot. *)
Theorem unanswered_question_reveals_nothing (s : State) (Q : Question) :
  truthy (selectedAnswer s) = false ->
  Forall
    (fun button =>
       exists b,
         button = Some b
         /\ disabled b = false
         /\ className b = "bg-white hover:bg-gray-50"
         /\ check_slot b = Value (selectedAnswer s)
         /\ cross_slot b = Value (selectedAnswer s))
    (option_buttons s Q)
  /\ explanation_box s Q = NoBox (selectedAnswer s)
  /\ (renders_nothing (Value (selectedAnswer s)) = true
      <-> forall x, selectedAnswer s <> VNum x).
Proof.
  intros Hf. split; [|split].
  - unfold option_buttons. apply Forall_fmap, Forall_forall.
    intros option _. simpl. unfold option_button. rewrite Hf. by eexists.
  - unfold explanation_box. by rewrite Hf.
  - destruct (selectedAnswer s) as [| |b|x|t| |]; simpl in *; try done.
    + split; [intros [=]|]. intros H. by destruct (H x).
    + apply negb_false_iff in Hf. by rewrite Hf.
Qed.

Lemma unanswered_question_reveals_nothing_witness :
  renders_nothing (Value (selectedAnswer one_question_session)) = true
  <-> forall x, selectedAnswer one_question_session <> VNum x.
Proof.
  apply (unanswered_question_reveals_nothing one_question_session
           {| id := VUndefined; question := "Capital of France?";
              options := [VStr "Oslo"; VStr "Paris"; VStr "Rome"];
              answer := "Paris"; explanation := VStr "";
              feedback := VStr "" |}).
  reflexivity.
Defined.
